(** * The Megabrain agent: a web-search augmented answering pipeline

    A shallow embedding of [src/nanda_adapter/agent/megabrain.py]:
    [search_web], [create_megabrain_agent] and the closure
    [megabrain_improvement] it returns.

    The program talks to three things it does not own: the process
    environment ([os.getenv]), the search service ([requests.post]) and the
    hosted model behind a LangChain chain ([chain.invoke]).  They are kept
    abstract, as the operations of a class [Services] over an arbitrary type
    of worlds, so every theorem holds for every behaviour of the three.
    The lines the program has printed and the outside calls it has made are
    recorded as a list of events.

    The program also writes to the standard output.  [print] raises when
    the stream does not take the line, and where a print stands decides
    what becomes of that exception: two prints of [megabrain_improvement]
    stand inside its [try], the print of each [except] handler stands
    outside any [try].  The standard output is a fourth collaborator, the
    class [Stdout].  The first part of the properties is about the code on
    the console [writable], which takes every line; the second part is
    about the code on an arbitrary console.

    A Python str is a [string].  The three operations on str whose result
    depends on the Unicode tables of the interpreter (strip, upper, repr)
    are the interface [PyStr], so the theorems hold for Python's own
    versions of them; an implementation for 7-bit text runs the examples.

    Python exceptions are modelled by the type [Exception]: the instances of
    Python's class Exception, which is what both [except Exception] clauses
    of the source catch.  The interpreter's exit signals (KeyboardInterrupt,
    SystemExit), which derive from BaseException only, are not failures of a
    call and are outside the model. *)

From Stdlib Require Import String Ascii List ZArith Lia Bool DecimalString.
Import ListNotations.
Local Open Scope list_scope.
Local Open Scope string_scope.

(** ** Python values *)

(** What [response.json()] can return: the decoded JSON document.  An
    object is the association list of its members, looked up by key; a float
    carries its printed form. *)
#[warnings="-register-all"]
Inductive json : Type :=
| JNull
| JBool (b : bool)
| JInt (z : Z)
| JFloat (printed : string)
| JStr (s : string)
| JArr (items : list json)
| JObj (members : list (string * json)).

(** A Python dict with string keys, such as the records [search_web] builds. *)
Definition pydict : Type := list (string * json).

Fixpoint dict_lookup (key : string) (d : pydict) : option json :=
  match d with
  | [] => None
  | (k, v) :: rest => if String.eqb k key then Some v else dict_lookup key rest
  end.

Definition type_name (v : json) : string :=
  match v with
  | JNull => "NoneType"
  | JBool _ => "bool"
  | JInt _ => "int"
  | JFloat _ => "float"
  | JStr _ => "str"
  | JArr _ => "list"
  | JObj _ => "dict"
  end.

(** The line feed, written [\n] in the source. *)
Definition nl : string := String (ascii_of_nat 10) EmptyString.

(** [sep.join(parts)] *)
Definition join (sep : string) (parts : list string) : string :=
  String.concat sep parts.

Definition str_of_Z (z : Z) : string := NilZero.string_of_int (Z.to_int z).
Definition str_of_nat (n : nat) : string := NilZero.string_of_uint (Nat.to_uint n).

(** The methods of [str] the program calls whose result depends on the
    Unicode tables of the interpreter: [s.strip()], [s.upper()] and
    [repr(s)].  They are an interface; [Demo.ascii_str] below implements it
    for 7-bit text. *)
Class PyStr : Type := {
  str_strip : string -> string;
  str_upper : string -> string;
  str_repr : string -> string
}.

(** ** Exceptions and results *)

Record Exception : Type := mkException {
  exc_class : string;   (* the class name *)
  exc_str : string      (* str(e), what an f-string prints for it *)
}.

Definition AttributeError (msg : string) : Exception := mkException "AttributeError" msg.
Definition TypeError (msg : string) : Exception := mkException "TypeError" msg.
Definition KeyError (printed_key : string) : Exception := mkException "KeyError" printed_key.
Definition HTTPError (msg : string) : Exception := mkException "HTTPError" msg.

Inductive result (A : Type) : Type :=
| Ok (a : A)
| Raise (e : Exception).
Arguments Ok {A} a.
Arguments Raise {A} e.

Definition result_bind {A B : Type} (r : result A) (k : A -> result B) : result B :=
  match r with
  | Ok a => k a
  | Raise e => Raise e
  end.

Notation "x <~ r ;; k" := (result_bind r (fun x => k))
  (at level 61, r at next level, right associativity).

(** [v.get(key, default)]: only a dict has the method. *)
Definition py_get (v : json) (key : string) (default : json) : result json :=
  match v with
  | JObj members =>
      Ok (match dict_lookup key members with Some x => x | None => default end)
  | _ => Raise (AttributeError ("'" ++ type_name v ++ "' object has no attribute 'get'"))
  end.

(** What [for item in v] runs over: the elements of a list, the keys of a
    dict, the characters of a str; the other values are not iterable. *)
Definition py_iter (v : json) : result (list json) :=
  match v with
  | JArr items => Ok items
  | JObj members => Ok (map (fun kv => JStr (fst kv)) members)
  | JStr s => Ok (map (fun c => JStr (String c EmptyString)) (list_ascii_of_string s))
  | _ => Raise (TypeError ("'" ++ type_name v ++ "' object is not iterable"))
  end.

(** [d[key]]: a missing key raises KeyError. *)
Definition getitem `{PyStr} (d : pydict) (key : string) : result json :=
  match dict_lookup key d with
  | Some v => Ok v
  | None => Raise (KeyError (str_repr key))
  end.

(** [repr(v)] and [str(v)], the latter being what an f-string field prints. *)
Fixpoint py_repr `{PyStr} (v : json) : string :=
  match v with
  | JNull => "None"
  | JBool true => "True"
  | JBool false => "False"
  | JInt z => str_of_Z z
  | JFloat printed => printed
  | JStr s => str_repr s
  | JArr items => "[" ++ join ", " (map py_repr items) ++ "]"
  | JObj members =>
      "{" ++ join ", " (map (fun kv => str_repr (fst kv) ++ ": " ++ py_repr (snd kv)) members)
          ++ "}"
  end.

Definition py_str `{PyStr} (v : json) : string :=
  match v with
  | JStr s => s
  | _ => py_repr v
  end.

(** ** The outside world *)

(** The [requests.post] call of [search_web]: the payload stands for the
    body [json.dumps(payload)] that serialises it. *)
Record request : Type := mkRequest {
  req_url : string;
  req_headers : list (string * string);
  req_payload : pydict
}.

(** The response of the service: its status line and what [response.json()]
    does on its body (the decoded document, or the decoding error). *)
Record response : Type := mkResponse {
  status_code : Z;
  reason : string;
  json_body : result json
}.

(** The model handle built by [ChatAnthropic(api_key=..., model=...)]. *)
Record ChatAnthropic : Type := mkChatAnthropic {
  api_key : option string;
  model : string
}.

Inductive event : Type :=
| EvPrint (line : string)                            (* print(line) *)
| EvPost (req : request)                             (* requests.post(...) *)
| EvInvoke (llm : ChatAnthropic) (prompt : string).  (* (prompt | llm | StrOutputParser()).invoke *)

(** The three collaborators, over a type [W] of worlds.  A call may answer
    or raise, and leaves the world in a new state. *)
Class Services (W : Type) : Type := {
  os_getenv : string -> W -> option string;
  requests_post : request -> W -> result response * W;
  chain_invoke : ChatAnthropic -> string -> W -> result string * W
}.

(** The standard output, which [print] writes to.  Writing a line may raise:
    UnicodeEncodeError when the encoding of the stream has no code for a
    character of the line, ValueError on a closed stream, OSError on a
    broken pipe. *)
Class Stdout (W : Type) : Type := {
  stdout_write : string -> W -> result unit * W
}.

(** ** The monad of the program: a world, exceptions, and the events emitted *)

Definition M (W A : Type) : Type := W -> result A * W * list event.

Definition outcome {W A : Type} (r : result A * W * list event) : result A := fst (fst r).
Definition world_after {W A : Type} (r : result A * W * list event) : W := snd (fst r).
Definition events {W A : Type} (r : result A * W * list event) : list event := snd r.

Section Monad.
Context {W : Type}.

Definition ret {A : Type} (a : A) : M W A := fun w => (Ok a, w, []).

Definition lift {A : Type} (r : result A) : M W A := fun w => (r, w, []).

Definition bind {A B : Type} (m : M W A) (k : A -> M W B) : M W B :=
  fun w =>
    match m w with
    | (Ok a, w1, t1) => let '(r, w2, t2) := k a w1 in (r, w2, (t1 ++ t2)%list)
    | (Raise e, w1, t1) => (Raise e, w1, t1)
    end.

(** [try: body except Exception as e: handler(e)] *)
Definition try_except {A : Type} (body : M W A) (handler : Exception -> M W A) : M W A :=
  fun w =>
    match body w with
    | (Ok a, w1, t1) => (Ok a, w1, t1)
    | (Raise e, w1, t1) => let '(r, w2, t2) := handler e w1 in (r, w2, (t1 ++ t2)%list)
    end.

Context `{Services W}.

Definition getenv (name : string) : M W (option string) :=
  fun w => (Ok (os_getenv name w), w, []).

Definition post (req : request) : M W response :=
  fun w => let '(r, w1) := requests_post req w in (r, w1, [EvPost req]).

Definition invoke (llm : ChatAnthropic) (prompt : string) : M W string :=
  fun w => let '(r, w1) := chain_invoke llm prompt w in (r, w1, [EvInvoke llm prompt]).

Context {console : Stdout W}.

(** [print(line)]: the line is among the events of the run when it was
    written; when the stream refuses it, the exception is that of [print]. *)
Definition print (line : string) : M W unit :=
  fun w =>
    match stdout_write line w with
    | (Ok _, w1) => (Ok tt, w1, [EvPrint line])
    | (Raise e, w1) => (Raise e, w1, [])
    end.
End Monad.

(** A console that takes every line and leaves the world as it is. *)
Definition writable {W : Type} : Stdout W := {|
  stdout_write := fun _ w => (Ok tt, w)
|}.

Notation "x <- m ;; k" := (bind m (fun x => k))
  (at level 61, m at next level, right associativity).
Notation "m ;; k" := (bind m (fun _ => k))
  (at level 61, right associativity).

(** ** The prompt templates *)

(** The classifier template (question_check_prompt), cut at its placeholder {message}. *)
Definition question_check_before_message : string :=
"Analyze if the following message is a question that would benefit from current, factual information from the web. 
                Respond with only 'YES' or 'NO'.
                
                Examples that need web search:
                - Questions about current events, news, or recent developments
                - Questions about specific facts, statistics, or data
                - Questions about technology, companies, or products
                - Questions about recent research or studies
                - Questions about current prices, availability, or status
                
                Examples that don't need web search:
                - General philosophical questions
                - Personal advice or opinions
                - Creative writing prompts
                - Simple greetings or casual conversation
                
                Message: ".

Definition question_check_after_message : string :=
"
                
                Response:".

(** The with-results template (response_prompt of the search branch), cut at its
    placeholders {message} and {search_results}. *)
Definition with_results_before_message : string :=
"You are a Megabrain AI assistant with access to current web information. 
                    Answer the user's question comprehensively using the provided search results and your knowledge.
                    
                    Guidelines:
                    - Provide a thorough, accurate, and helpful answer
                    - Use the search results to support your response with current information
                    - Cite specific sources when referencing search results
                    - If search results don't fully answer the question, use your knowledge to fill gaps
                    - Be clear about what information comes from web search vs. your training data
                    - Structure your response logically and clearly
                    
                    User's Question: ".

Definition with_results_before_results : string :=
"
                    
                    Web Search Results:
                    ".

Definition with_results_after_results : string :=
"
                    
                    Comprehensive Answer:".

(** The no-results template (response_prompt of the else branch), cut at {message}. *)
Definition no_results_before_message : string :=
"You are a Megabrain AI assistant. Answer the user's question or respond to their message 
                    in a helpful, intelligent, and comprehensive manner.
                    
                    Guidelines:
                    - Provide thoughtful, accurate, and helpful responses
                    - Be conversational but informative
                    - If it's a question, give a complete answer
                    - If it's a statement, respond appropriately
                    - Use your knowledge to provide valuable insights
                    
                    User's Message: ".

Definition no_results_after_message : string :=
"
                    
                    Response:".

(** [PromptTemplate.format]: the template with each placeholder replaced. *)
Definition question_check_prompt (message : string) : string :=
  question_check_before_message ++ message ++ question_check_after_message.

Definition response_prompt_with_results (message search_results : string) : string :=
  with_results_before_message ++ message ++ with_results_before_results
    ++ search_results ++ with_results_after_results.

Definition response_prompt_no_results (message : string) : string :=
  no_results_before_message ++ message ++ no_results_after_message.

(** ** search_web *)

(** [Response.raise_for_status] of the requests library: an HTTPError for a
    status from 400 to 599, nothing for any other status. *)
Definition raise_for_status (url : string) (r : response) : result unit :=
  let code := status_code r in
  if (400 <=? code)%Z && (code <? 500)%Z then
    Raise (HTTPError (str_of_Z code ++ " Client Error: " ++ reason r ++ " for url: " ++ url))
  else if (500 <=? code)%Z && (code <? 600)%Z then
    Raise (HTTPError (str_of_Z code ++ " Server Error: " ++ reason r ++ " for url: " ++ url))
  else Ok tt.

(** The loop [for item in ...: results.append({...})], from the items still
    to visit and the list built so far. *)
Fixpoint collect_organic (items : list json) (results : list pydict) : result (list pydict) :=
  match items with
  | [] => Ok results
  | item :: rest =>
      title <~ py_get item "title" (JStr "") ;;
      snippet <~ py_get item "snippet" (JStr "") ;;
      link <~ py_get item "link" (JStr "") ;;
      collect_organic rest
        (results ++ [[("title", title); ("snippet", snippet); ("link", link)]])%list
  end.

(** The statements of the [try] block after the request: from the response
    to the list returned. *)
Definition read_response (url : string) (r : response) : result (list pydict) :=
  _ <~ raise_for_status url r ;;
  data <~ json_body r ;;
  organic <~ py_get data "organic" (JArr []) ;;
  items <~ py_iter organic ;;
  collect_organic items [].

Definition serper_url : string := "https://google.serper.dev/search".

Definition serper_request (serper_api_key query : string) (num_results : Z) : request :=
  {| req_url := serper_url;
     req_headers := [("X-API-KEY", serper_api_key); ("Content-Type", "application/json")];
     req_payload := [("q", JStr query); ("num", JInt num_results)] |}.

Definition search_disabled_warning : string :=
  "Warning: SERPER_API_KEY not found. Web search will be disabled.".

Section Program.
Context {W : Type} `{Services W} `{PyStr} {console : Stdout W}.

Definition search_web (query : string) (num_results : Z) : M W (list pydict) :=
  serper_api_key <- getenv "SERPER_API_KEY" ;;
  let disabled : M W (list pydict) := print search_disabled_warning ;; ret [] in
  match serper_api_key with
  | None => disabled
  | Some key =>
      if String.eqb key "" then disabled
      else
        try_except
          (response <- post (serper_request key query num_results) ;;
           lift (read_response serper_url response))
          (fun e => print ("Error in web search: " ++ exc_str e) ;; ret [])
  end.

(** ** megabrain_improvement *)

(** One entry of the list comprehension: the f-string over a result. *)
Definition render_result (r : pydict) : result string :=
  title <~ getitem r "title" ;;
  snippet <~ getitem r "snippet" ;;
  link <~ getitem r "link" ;;
  Ok ("Title: " ++ py_str title ++ nl ++ "Snippet: " ++ py_str snippet ++ nl
        ++ "Link: " ++ py_str link).

Fixpoint render_results (rs : list pydict) : result (list string) :=
  match rs with
  | [] => Ok []
  | r :: rest =>
      line <~ render_result r ;;
      lines <~ render_results rest ;;
      Ok (line :: lines)
  end.

Definition format_search_context (search_results : list pydict) : result string :=
  lines <~ render_results search_results ;;
  Ok (join (nl ++ nl) lines).

Definition fallback_response (message_text : string) : string :=
  "I apologize, but I encountered an error while processing your message: '"
    ++ message_text
    ++ "'. Please try rephrasing your question or let me know how I can help you in a different way.".

(** The statements of the [try] block of [megabrain_improvement]. *)
Definition megabrain_steps (llm : ChatAnthropic) (message_text : string) : M W string :=
  raw <- invoke llm (question_check_prompt message_text) ;;
  let needs_search := str_upper (str_strip raw) in
  search_results <-
    (if String.eqb needs_search "YES" then
       print ("🔍 Searching the web for: " ++ message_text) ;;
       found <- search_web message_text 5 ;;
       print ("📊 Found " ++ str_of_nat (length found) ++ " search results") ;;
       ret found
     else ret []) ;;
  result <-
    match search_results with
    | _ :: _ =>
        search_context <- lift (format_search_context search_results) ;;
        invoke llm (response_prompt_with_results message_text search_context)
    | [] =>
        invoke llm (response_prompt_no_results message_text)
    end ;;
  ret (str_strip result).

Definition megabrain_improvement (llm : ChatAnthropic) (message_text : string) : M W string :=
  try_except
    (megabrain_steps llm message_text)
    (fun e =>
       print ("Error in megabrain improvement: " ++ exc_str e) ;;
       ret (fallback_response message_text)).

(** [create_megabrain_agent]: reads the model credential, builds the
    handle, and returns the closure over it. *)
Definition create_megabrain_agent : M W (string -> M W string) :=
  anthropic_api_key <- getenv "ANTHROPIC_API_KEY" ;;
  let llm := {| api_key := anthropic_api_key; model := "claude-3-sonnet-20240229" |} in
  ret (megabrain_improvement llm).
End Program.

(** ** Observations on a run *)

(** The requests sent to the search service, in order. *)
Fixpoint posts (t : list event) : list request :=
  match t with
  | [] => []
  | EvPost req :: rest => req :: posts rest
  | _ :: rest => posts rest
  end.

(** The prompts sent to the model, in order. *)
Fixpoint prompts (t : list event) : list string :=
  match t with
  | [] => []
  | EvInvoke _ prompt :: rest => prompt :: prompts rest
  | _ :: rest => prompts rest
  end.

(** The lines printed, in order. *)
Fixpoint printed (t : list event) : list string :=
  match t with
  | [] => []
  | EvPrint line :: rest => line :: printed rest
  | _ :: rest => printed rest
  end.

(** The model handles used, in order. *)
Fixpoint handles (t : list event) : list ChatAnthropic :=
  match t with
  | [] => []
  | EvInvoke llm _ :: rest => llm :: handles rest
  | _ :: rest => handles rest
  end.

(** [needle in haystack] on str. *)
Fixpoint contains (needle haystack : string) : bool :=
  String.prefix needle haystack
  || match haystack with
     | EmptyString => false
     | String _ rest => contains needle rest
     end.

(** The record [search_web] appends for an object of the organic list. *)
Definition record_of_members (members : pydict) : pydict :=
  let field key :=
    match dict_lookup key members with Some x => x | None => JStr "" end in
  [("title", field "title"); ("snippet", field "snippet"); ("link", field "link")].

Definition has_key (key : string) (d : pydict) : bool :=
  match dict_lookup key d with Some _ => true | None => false end.

Definition has_result_keys (d : pydict) : bool :=
  has_key "title" d && has_key "snippet" d && has_key "link" d.

(** A status for which [raise_for_status] raises. *)
Definition is_error_status (code : Z) : bool := (400 <=? code)%Z && (code <? 600)%Z.

(** A status of the 2xx class. *)
Definition is_success_status (code : Z) : bool := (200 <=? code)%Z && (code <? 300)%Z.

(** Whether a credential read from the environment enables search:
    [if not serper_api_key] takes both None and the empty string as absent. *)
Definition credential_present (v : option string) : bool :=
  match v with
  | None => false
  | Some key => negb (String.eqb key "")
  end.

(** What a list of results is rendered as: one block per result. *)
Definition rendered_as `{PyStr} (r : pydict) (block : string) : Prop :=
  exists title snippet link,
    dict_lookup "title" r = Some title
    /\ dict_lookup "snippet" r = Some snippet
    /\ dict_lookup "link" r = Some link
    /\ block = "Title: " ++ py_str title ++ nl ++ "Snippet: " ++ py_str snippet ++ nl
                 ++ "Link: " ++ py_str link.

(** Whether a text holds a line head of the formatted block of results. *)
Definition has_results_block (s : string) : bool :=
  contains "Title: " s || contains "Snippet: " s || contains "Link: " s.

Section Provider.
Context {W : Type} `{Services W}.

(** The failures of the search call: a transport error raised by
    [requests.post], a 4xx or 5xx status, or a body that [response.json()]
    cannot decode. *)
Definition http_call_fails (req : request) (w : W) : bool :=
  match fst (requests_post req w) with
  | Raise _ => true
  | Ok resp =>
      is_error_status (status_code resp)
      || match json_body resp with Raise _ => true | Ok _ => false end
  end.

(** The entries of the organic list in the provider's answer to a request
    (what the loop of [search_web] runs over); none when there is no answer
    to read them from. *)
Definition organic_entries (req : request) (w : W) : list json :=
  match fst (requests_post req w) with
  | Ok resp =>
      match (data <~ json_body resp ;;
             organic <~ py_get data "organic" (JArr []) ;;
             py_iter organic) with
      | Ok items => items
      | Raise _ => []
      end
  | Raise _ => []
  end.
End Provider.

(** ** The steps of the pipeline, as the proofs follow them *)

Section Steps.
Context {W : Type} `{Services W} `{PyStr}.

(** The prompt the synthesizer step builds from the results it is given. *)
Definition synthesizer_prompt (message_text : string) (search_results : list pydict)
  : result string :=
  match search_results with
  | [] => Ok (response_prompt_no_results message_text)
  | _ :: _ =>
      search_context <~ format_search_context search_results ;;
      Ok (response_prompt_with_results message_text search_context)
  end.

(** The conditional fetch on a console that takes every line: the results,
    the world and the events it leaves, from the raw output of the
    classifier. *)
Definition fetched (message_text raw : string) (w : W) : list pydict * W * list event :=
  if String.eqb (str_upper (str_strip raw)) "YES" then
    let run := search_web (console := writable) message_text 5 w in
    let found := match outcome run with Ok rs => rs | Raise _ => [] end in
    (found, world_after run,
     ([EvPrint ("🔍 Searching the web for: " ++ message_text)] ++ events run
        ++ [EvPrint ("📊 Found " ++ str_of_nat (length found) ++ " search results")])%list)
  else ([], w, []).

Definition error_line (e : Exception) : event :=
  EvPrint ("Error in megabrain improvement: " ++ exc_str e).

End Steps.

(** ** The steps of the pipeline on any console *)

Section ConsoleSteps.
Context {W : Type} `{Services W} `{PyStr} {console : Stdout W}.

(** What an [except] handler that prints a line and returns a value comes
    to, after the events [before]: the value when the line is written, the
    exception of [print] when it is not. *)
Definition logged {A : Type} (before : list event) (line : string) (value : A) (w : W)
  : result A * W * list event :=
  match stdout_write line w with
  | (Ok _, w1) => (Ok value, w1, (before ++ [EvPrint line])%list)
  | (Raise e, w1) => (Raise e, w1, before)
  end.

(** The two lines the pipeline prints around the search. *)
Definition searching_line (message_text : string) : string :=
  "🔍 Searching the web for: " ++ message_text.

Definition found_line (found : list pydict) : string :=
  "📊 Found " ++ str_of_nat (length found) ++ " search results".

Definition pipeline_error_line (e : Exception) : string :=
  "Error in megabrain improvement: " ++ exc_str e.

Definition search_error_line (e : Exception) : string :=
  "Error in web search: " ++ exc_str e.

(** The search branch of the steps: the statements under
    [if needs_search == YES], from the raw output of the classifier. *)
Definition fetch_results (message_text raw : string) : M W (list pydict) :=
  if String.eqb (str_upper (str_strip raw)) "YES" then
    print (searching_line message_text) ;;
    found <- search_web message_text 5 ;;
    print (found_line found) ;;
    ret found
  else ret [].

(** The second call to the model, after the events [before]. *)
Definition second_call (llm : ChatAnthropic) (message_text : string)
    (found : list pydict) (before : list event) (w : W)
  : result string * W * list event :=
  match synthesizer_prompt message_text found with
  | Raise e => (Raise e, w, before)
  | Ok prompt =>
      match chain_invoke llm prompt w with
      | (Ok answer, w1) =>
          (Ok (str_strip answer), w1, (before ++ [EvInvoke llm prompt])%list)
      | (Raise e, w1) => (Raise e, w1, (before ++ [EvInvoke llm prompt])%list)
      end
  end.

(** The provider answered the request with a status that is no error and a
    body whose organic member is the list of the objects [ms]. *)
Definition answered_with (req : request) (w : W) (ms : list pydict) : Prop :=
  exists resp w1 members,
    requests_post req w = (Ok resp, w1)
    /\ is_error_status (status_code resp) = false
    /\ json_body resp = Ok (JObj members)
    /\ dict_lookup "organic" members = Some (JArr (map JObj ms)).
End ConsoleSteps.

(** ** A scripted world, for running the program on concrete inputs *)

Module Demo.

(** The environment variables, and the answers the search service and the
    model will give to the calls to come, in order. *)
Record world : Type := mkWorld {
  environ : list (string * string);
  http_script : list (result response);
  llm_script : list (result string)
}.

Fixpoint lookup_env (name : string) (env : list (string * string)) : option string :=
  match env with
  | [] => None
  | (k, v) :: rest => if String.eqb k name then Some v else lookup_env name rest
  end.

(** [os.environ[name] = value], done by someone between two calls. *)
Definition setenv (name value : string) (w : world) : world :=
  {| environ := (name, value) :: environ w;
     http_script := http_script w;
     llm_script := llm_script w |}.

Definition ConnectionError : Exception :=
  mkException "ConnectionError" "Connection refused".

Definition APIError : Exception :=
  mkException "APIConnectionError" "Connection error.".

Definition JSONDecodeError : Exception :=
  mkException "JSONDecodeError" "Expecting value: line 1 column 1 (char 0)".

#[export] Instance services : Services world := {
  os_getenv name w := lookup_env name (environ w);
  requests_post _ w :=
    match http_script w with
    | [] => (Raise ConnectionError, w)
    | r :: rest =>
        (r, {| environ := environ w; http_script := rest; llm_script := llm_script w |})
    end;
  chain_invoke _ _ w :=
    match llm_script w with
    | [] => (Raise APIError, w)
    | r :: rest =>
        (r, {| environ := environ w; http_script := http_script w; llm_script := rest |})
    end
}.

(** [str.strip], [str.upper] and [repr] on 7-bit text. *)
Definition isspace (c : ascii) : bool :=
  let n := nat_of_ascii c in
  ((9 <=? n)%nat && (n <=? 13)%nat) || ((28 <=? n)%nat && (n <=? 32)%nat).

Fixpoint lstrip (s : string) : string :=
  match s with
  | EmptyString => EmptyString
  | String c rest => if isspace c then lstrip rest else s
  end.

Fixpoint rstrip (s : string) : string :=
  match s with
  | EmptyString => EmptyString
  | String c rest =>
      match rstrip rest with
      | EmptyString => if isspace c then EmptyString else String c EmptyString
      | kept => String c kept
      end
  end.

Definition strip (s : string) : string := rstrip (lstrip s).

Definition upper_char (c : ascii) : ascii :=
  let n := nat_of_ascii c in
  if (97 <=? n)%nat && (n <=? 122)%nat then ascii_of_nat (n - 32) else c.

Fixpoint upper (s : string) : string :=
  match s with
  | EmptyString => EmptyString
  | String c rest => String (upper_char c) (upper rest)
  end.

(** A text made of white space only. *)
Fixpoint blank (s : string) : bool :=
  match s with
  | EmptyString => true
  | String c rest => isspace c && blank rest
  end.

(** The spellings of YES, letter case apart. *)
Definition yes_spellings : list string :=
  ["YES"; "YEs"; "YeS"; "Yes"; "yES"; "yEs"; "yeS"; "yes"].

(** [repr] of a str with no quote, backslash or control character in it. *)
Definition repr (s : string) : string := "'" ++ s ++ "'".

#[export] Instance ascii_str : PyStr := {
  str_strip := strip;
  str_upper := upper;
  str_repr := repr
}.

Definition llm : ChatAnthropic :=
  {| api_key := Some "sk-ant"; model := "claude-3-sonnet-20240229" |}.

Definition hit (title snippet link : string) : json :=
  JObj [("title", JStr title); ("snippet", JStr snippet); ("link", JStr link)].

Definition ok_response (data : json) : result response :=
  Ok {| status_code := 200; reason := "OK"; json_body := Ok data |}.

(** Six organic entries, one more than the pipeline asks for. *)
Definition six_hits : json :=
  JObj [("organic",
         JArr [hit "t1" "s1" "l1"; hit "t2" "s2" "l2"; hit "t3" "s3" "l3";
               hit "t4" "s4" "l4"; hit "t5" "s5" "l5"; hit "t6" "s6" "l6"])].

Definition gold_hits : json :=
  JObj [("organic",
         JArr [hit "Gold price today" "Spot gold is trading" "https://a.example/gold";
               JObj [("title", JStr "Gold"); ("link", JStr "https://b.example")];
               hit "Prices" "Charts" "https://c.example"])].
End Demo.

(** ** Worlds used by the witnesses and counterexamples *)

Module Worlds.
Import Demo.

(** No search credential; the service would answer if it were asked. *)
Definition no_credential : world :=
  {| environ := [("ANTHROPIC_API_KEY", "sk-ant")];
     http_script := [ok_response six_hits];
     llm_script := [] |}.

(** A credential, and a provider that answers with six organic entries. *)
Definition six_entries : world :=
  {| environ := [("SERPER_API_KEY", "k")];
     http_script := [ok_response six_hits];
     llm_script := [] |}.

(** A credential, and a provider that answers 300 Multiple Choices with a
    well-formed body. *)
Definition multiple_choices : world :=
  {| environ := [("SERPER_API_KEY", "k")];
     http_script :=
       [Ok {| status_code := 300; reason := "Multiple Choices"; json_body := Ok gold_hits |}];
     llm_script := [] |}.

(** A credential, and a provider that answers 503 with a page that is not JSON. *)
Definition unavailable : world :=
  {| environ := [("SERPER_API_KEY", "k")];
     http_script :=
       [Ok {| status_code := 503; reason := "Service Unavailable";
              json_body := Raise JSONDecodeError |}];
     llm_script := [] |}.

Definition yes_with_blanks : string := " yes" ++ nl.

(** The classifier says NO, the model answers. *)
Definition says_no : world :=
  {| environ := [("SERPER_API_KEY", "k")];
     http_script := [ok_response six_hits];
     llm_script := [Ok "NO"; Ok "  2+2 is 4.  "] |}.

(** The classifier says yes, the provider returns three results. *)
Definition gold : world :=
  {| environ := [("SERPER_API_KEY", "k")];
     http_script := [ok_response gold_hits];
     llm_script := [Ok yes_with_blanks; Ok "Gold trades near its high."] |}.

(** The classifier says YES, the provider cannot be reached. *)
Definition search_down : world :=
  {| environ := [("SERPER_API_KEY", "k")];
     http_script := [Raise ConnectionError];
     llm_script := [Ok "YES"; Ok "Here is what I know."] |}.

(** The model cannot be reached at all. *)
Definition model_down : world :=
  {| environ := [("SERPER_API_KEY", "k")];
     http_script := [ok_response gold_hits];
     llm_script := [] |}.

(** The classifier says YES, the search works, the second call to the model fails. *)
Definition synthesizer_down : world :=
  {| environ := [("SERPER_API_KEY", "k")];
     http_script := [ok_response gold_hits];
     llm_script := [Ok "YES"; Raise APIError] |}.

Definition gold_question : string := "What is the current price of gold?".
Definition news_question : string := "Tell me about today's news".

Definition gold_records : list pydict :=
  [ [("title", JStr "Gold price today"); ("snippet", JStr "Spot gold is trading");
     ("link", JStr "https://a.example/gold")];
    [("title", JStr "Gold"); ("snippet", JStr ""); ("link", JStr "https://b.example")];
    [("title", JStr "Prices"); ("snippet", JStr "Charts"); ("link", JStr "https://c.example")] ].
End Worlds.

(** * The rest of the repository *)

(** ** The storyteller agent

    [src/nanda_adapter/implementation/langchain_storyteller.py]:
    [create_storyteller_improvement] and the closure
    [storyteller_improvement] it returns. *)

(** The template of the storyteller, cut at its placeholder {message}. *)
Definition story_before_message : string :=
"Transform the following message into a short, engaging story (exactly 1 paragraph). 
        The story should capture the essence and meaning of the original message while presenting it as a narrative.
        Make it creative, engaging, and well-written. Use vivid descriptions and storytelling elements.
        Keep it to one paragraph only.
        
        Original message: ".

Definition story_after_message : string :=
"
        
        Short story:".

Definition storyteller_prompt (message : string) : string :=
  story_before_message ++ message ++ story_after_message.

Definition storyteller_fallback (message_text : string) : string :=
  "Once upon a time, there was a message that said: "
    ++ message_text
    ++ ". And that was the beginning of an interesting tale.".

Section Storyteller.
Context {W : Type} `{Services W} `{PyStr} {console : Stdout W}.

Definition storyteller_improvement (llm : ChatAnthropic) (message_text : string)
  : M W string :=
  try_except
    (result <- invoke llm (storyteller_prompt message_text) ;;
     ret (str_strip result))
    (fun e =>
       print ("Error in storyteller improvement: " ++ exc_str e) ;;
       ret (storyteller_fallback message_text)).

Definition create_storyteller_improvement : M W (string -> M W string) :=
  anthropic_api_key <- getenv "ANTHROPIC_API_KEY" ;;
  let llm := {| api_key := anthropic_api_key; model := "claude-3-haiku-20240307" |} in
  ret (storyteller_improvement llm).
End Storyteller.

(** ** The two [main] functions

    [main] hands the agent to the NANDA framework and starts a server.  The
    framework is not part of the repository: its constructor and its two
    ways of starting a server are the operations of a class [Hosting], each
    of which may raise.  The run of [main] records them next to the events
    of the agent code. *)

(** The improvement logic an agent is built around. *)
Definition improvement (W : Type) : Type := string -> M W string.

Inductive host_event (W : Type) : Type :=
| Ran (ev : event)                                   (* an event of the code above *)
| NandaNew (logic : improvement W)                   (* NANDA(logic) *)
| StartServer (logic : improvement W)                (* nanda.start_server() *)
| StartServerApi (logic : improvement W) (anthropic_key : option string) (domain : string).
                                                     (* nanda.start_server_api(key, domain) *)
Arguments Ran {W} ev.
Arguments NandaNew {W} logic.
Arguments StartServer {W} logic.
Arguments StartServerApi {W} logic anthropic_key domain.

Class Hosting (W : Type) : Type := {
  nanda_new : improvement W -> W -> result unit * W;
  nanda_start_server : improvement W -> W -> result unit * W;
  nanda_start_server_api : improvement W -> option string -> string -> W -> result unit * W
}.

Definition H (W A : Type) : Type := W -> result A * W * list (host_event W).

Definition host_outcome {W A : Type} (r : result A * W * list (host_event W)) : result A :=
  fst (fst r).
Definition host_world_after {W A : Type} (r : result A * W * list (host_event W)) : W :=
  snd (fst r).
Definition host_events {W A : Type} (r : result A * W * list (host_event W))
  : list (host_event W) := snd r.

(** The calls to the framework in a run, in order. *)
Fixpoint host_calls {W : Type} (t : list (host_event W)) : list (host_event W) :=
  match t with
  | [] => []
  | Ran _ :: rest => host_calls rest
  | call :: rest => call :: host_calls rest
  end.

(** The lines printed in a run, in order. *)
Fixpoint host_printed {W : Type} (t : list (host_event W)) : list string :=
  match t with
  | [] => []
  | Ran (EvPrint line) :: rest => line :: host_printed rest
  | _ :: rest => host_printed rest
  end.

Declare Scope host_scope.
Delimit Scope host_scope with host.

Section Host.
Context {W : Type}.

Definition host_ret {A : Type} (a : A) : H W A := fun w => (Ok a, w, []).

Definition host_bind {A B : Type} (m : H W A) (k : A -> H W B) : H W B :=
  fun w =>
    match m w with
    | (Ok a, w1, t1) => let '(r, w2, t2) := k a w1 in (r, w2, (t1 ++ t2)%list)
    | (Raise e, w1, t1) => (Raise e, w1, t1)
    end.

(** A piece of the code above run inside [main]. *)
Definition agent_code {A : Type} (m : M W A) : H W A :=
  fun w => let '(r, w1, t) := m w in (r, w1, map Ran t).

Context `{Hosting W}.

(** [NANDA(logic)]: the object stands for the logic it was built around. *)
Definition NANDA (logic : improvement W) : H W (improvement W) :=
  fun w =>
    let '(r, w1) := nanda_new logic w in
    (match r with Ok _ => Ok logic | Raise e => Raise e end, w1, [NandaNew logic]).

Definition start_server (nanda : improvement W) : H W unit :=
  fun w => let '(r, w1) := nanda_start_server nanda w in (r, w1, [StartServer nanda]).

Definition start_server_api (nanda : improvement W) (anthropic_key : option string)
    (domain : string) : H W unit :=
  fun w =>
    let '(r, w1) := nanda_start_server_api nanda anthropic_key domain w in
    (r, w1, [StartServerApi nanda anthropic_key domain]).
End Host.

Notation "x <- m ;; k" := (host_bind m (fun x => k))
  (at level 61, m at next level, right associativity) : host_scope.
Notation "m ;; k" := (host_bind m (fun _ => k))
  (at level 61, right associativity) : host_scope.

Section Main.
Context {W : Type} `{Services W} `{PyStr} `{Hosting W} {console : Stdout W}.

(** [os.getenv(name, default)] *)
Definition getenv_default (name default : string) : M W string :=
  fun w => (Ok (match os_getenv name w with Some v => v | None => default end), w, []).

(** The tail of both [main] functions: the server is started in production
    mode for a domain other than localhost. *)
Definition serve (nanda : improvement W) : H W unit :=
  (domain <- agent_code (getenv_default "DOMAIN_NAME" "localhost") ;;
   if negb (String.eqb domain "localhost") then
     anthropic_key <- agent_code (getenv "ANTHROPIC_API_KEY") ;;
     start_server_api nanda anthropic_key domain
   else
     start_server nanda)%host.

(** [main] of megabrain.py *)
Definition megabrain_main : H W unit :=
  (anthropic_api_key <- agent_code (getenv "ANTHROPIC_API_KEY") ;;
   if negb (credential_present anthropic_api_key) then
     agent_code (print "Please set your ANTHROPIC_API_KEY environment variable")
   else
     serper_api_key <- agent_code (getenv "SERPER_API_KEY") ;;
     (if negb (credential_present serper_api_key) then
        agent_code (print "Warning: SERPER_API_KEY not found. Web search will be disabled.") ;;
        agent_code (print "To enable web search, get a free API key from https://serper.dev/")
      else host_ret tt) ;;
     megabrain_logic <- agent_code create_megabrain_agent ;;
     nanda <- NANDA megabrain_logic ;;
     agent_code (print "Starting Megabrain Agent with LangChain and Web Search...") ;;
     agent_code (print "I can answer questions using current web information!") ;;
     serve nanda)%host.

(** [main] of langchain_storyteller.py *)
Definition storyteller_main : H W unit :=
  (anthropic_api_key <- agent_code (getenv "ANTHROPIC_API_KEY") ;;
   if negb (credential_present anthropic_api_key) then
     agent_code (print "Please set your ANTHROPIC_API_KEY environment variable")
   else
     storyteller_logic <- agent_code create_storyteller_improvement ;;
     nanda <- NANDA storyteller_logic ;;
     agent_code (print "Starting Storyteller Agent with LangChain...") ;;
     agent_code (print "All messages will be transformed into short stories!") ;;
     serve nanda)%host.

(** The server call [main] ends with, from the environment it finds then. *)
Definition server_call (nanda : improvement W) (w : W) : host_event W :=
  match os_getenv "DOMAIN_NAME" w with
  | None => StartServer nanda
  | Some domain =>
      if String.eqb domain "localhost" then StartServer nanda
      else StartServerApi nanda (os_getenv "ANTHROPIC_API_KEY" w) domain
  end.

(** The lines [main] of the megabrain agent prints about the search key. *)
Definition serper_warning_lines (w : W) : list string :=
  if credential_present (os_getenv "SERPER_API_KEY" w) then []
  else ["Warning: SERPER_API_KEY not found. Web search will be disabled.";
        "To enable web search, get a free API key from https://serper.dev/"].
End Main.



(** ** The framework, scripted *)

Module HostDemo.
Import Demo.


Definition PortInUse : Exception :=
  mkException "OSError" "[Errno 98] Address already in use".

(** A framework that cannot be set up. *)
Definition broken : Hosting world := {|
  nanda_new := fun _ w => (Raise PortInUse, w);
  nanda_start_server := fun _ w => (Ok tt, w);
  nanda_start_server_api := fun _ _ _ w => (Ok tt, w)
|}.

Definition env_only (env : list (string * string)) : world :=
  {| environ := env; http_script := []; llm_script := [] |}.

Definition sonnet (key : option string) : ChatAnthropic :=
  {| api_key := key; model := "claude-3-sonnet-20240229" |}.



Definition development : world :=
  env_only [("ANTHROPIC_API_KEY", "sk-ant"); ("SERPER_API_KEY", "k")].


(** Answers of the provider, by the shape of the body. *)
Definition answering (data : json) : world :=
  {| environ := [("SERPER_API_KEY", "k")];
     http_script := [ok_response data];
     llm_script := [] |}.

Definition gold_members : list pydict :=
  [ [("title", JStr "Gold price today"); ("snippet", JStr "Spot gold is trading");
     ("link", JStr "https://a.example/gold")];
    [("title", JStr "Gold"); ("link", JStr "https://b.example")];
    [("title", JStr "Prices"); ("snippet", JStr "Charts"); ("link", JStr "https://c.example")] ].


(** A body with no organic member. *)
Definition no_organic : json :=
  JObj [("searchParameters", JObj [("q", JStr "gold")]); ("credits", JInt 1)].


End HostDemo.

(** ** A console that takes 7-bit text only *)

Module ConsoleDemo.
Import Demo.

Fixpoint seven_bit (s : string) : bool :=
  match s with
  | EmptyString => true
  | String c rest => (nat_of_ascii c <? 128)%nat && seven_bit rest
  end.

(** A stream opened with the ascii codec: it refuses a line with any other
    character, with the exception it is told to raise. *)
Definition ascii_only (refusal : Exception) : Stdout world := {|
  stdout_write := fun line w =>
    if seven_bit line then (Ok tt, w) else (Raise refusal, w)
|}.

Definition UnicodeEncodeError (msg : string) : Exception :=
  mkException "UnicodeEncodeError" msg.

(** What Python reports when the ascii codec meets the magnifying glass that
    opens the Searching line, the e with a grave accent of the refusal of
    the model, and the u with a diaeresis of the reason phrase. *)
Definition glass_refused : Exception :=
  UnicodeEncodeError
    "'ascii' codec can't encode character '\U0001f50d' in position 0: ordinal not in range(128)".

Definition accent_refused : Exception :=
  UnicodeEncodeError
    "'ascii' codec can't encode character '\xe8' in position 35: ordinal not in range(128)".

Definition diaeresis_refused : Exception :=
  UnicodeEncodeError
    "'ascii' codec can't encode character '\xfc' in position 56: ordinal not in range(128)".

(** The model refuses with a message that is not 7-bit text. *)
Definition ModelRefusal : Exception :=
  mkException "APIStatusError" "Modèle indisponible".

Definition refusing_model : world :=
  {| environ := [("SERPER_API_KEY", "k")];
     http_script := [ok_response gold_hits];
     llm_script := [Raise ModelRefusal] |}.

(** The provider answers 503 with a reason phrase that is not 7-bit text. *)
Definition refusing_provider : world :=
  {| environ := [("SERPER_API_KEY", "k")];
     http_script :=
       [Ok {| status_code := 503; reason := "Dienst nicht verfügbar";
              json_body := Raise JSONDecodeError |}];
     llm_script := [] |}.
(** ** A pipe whose reader goes away

    The standard output is a pipe, written through without a buffer, and
    its reader takes a number of lines and exits: the world, with the number
    of lines the pipe still takes.  Every later print raises
    BrokenPipeError. *)
Definition piped : Type := (world * nat)%type.

Definition BrokenPipeError : Exception :=
  mkException "BrokenPipeError" "[Errno 32] Broken pipe".

Definition piped_services : Services piped := {|
  os_getenv := fun name state => os_getenv name (fst state);
  requests_post := fun req state =>
    let '(r, w) := requests_post req (fst state) in (r, (w, snd state));
  chain_invoke := fun llm prompt state =>
    let '(r, w) := chain_invoke llm prompt (fst state) in (r, (w, snd state))
|}.

Definition pipe : Stdout piped := {|
  stdout_write := fun _ state =>
    match snd state with
    | O => (Raise BrokenPipeError, state)
    | S lines => (Ok tt, (fst state, lines))
    end
|}.
End ConsoleDemo.

(** * Properties on a console that takes every line

    Throughout this part the console is [writable]: every [print] writes
    its line and goes on.  The second part, on any console, says what the
    code does when a line is refused. *)

Section WritableConsole.
#[local] Existing Instance writable.

Lemma print_on_a_writable_console {W : Type} (line : string) (w : W) :
  print line w = (Ok tt, w, [EvPrint line]).
Proof. reflexivity. Qed.

(** ** The prompt templates are the text of the source *)

Lemma template_lengths :
  String.length question_check_before_message = 890
  /\ String.length question_check_after_message = 43
  /\ String.length with_results_before_message = 816
  /\ String.length with_results_before_results = 82
  /\ String.length with_results_after_results = 63
  /\ String.length no_results_before_message = 603
  /\ String.length no_results_after_message = 51.
Proof. repeat split; vm_compute; reflexivity. Qed.

(** ** The extraction loop *)

Lemma collect_organic_objects (ms : list pydict) (acc : list pydict) :
  collect_organic (map JObj ms) acc = Ok (acc ++ map record_of_members ms)%list.
Proof.
  revert acc. induction ms as [|m ms IH]; intros acc; simpl.
  - now rewrite app_nil_r.
  - rewrite IH, <- app_assoc. reflexivity.
Qed.

Lemma collect_organic_inv (items : list json) :
  forall acc rs,
    collect_organic items acc = Ok rs ->
    exists ms, items = map JObj ms /\ rs = (acc ++ map record_of_members ms)%list.
Proof.
  induction items as [|item rest IH]; intros acc rs Hrun.
  - exists []. simpl in *. rewrite app_nil_r. now inversion Hrun.
  - destruct item; simpl in Hrun; try discriminate.
    apply IH in Hrun. destruct Hrun as [ms [Hrest Hrs]].
    exists (members :: ms). split.
    + simpl. now rewrite Hrest.
    + rewrite Hrs, <- app_assoc. reflexivity.
Qed.

Lemma collect_organic_raises (items : list json) (acc1 acc2 : list pydict) (e : Exception) :
  collect_organic items acc1 = Raise e -> collect_organic items acc2 = Raise e.
Proof.
  revert acc1 acc2. induction items as [|item rest IH]; intros acc1 acc2; simpl.
  - discriminate.
  - destruct item; simpl; try (intros Hr; exact Hr).
    apply IH.
Qed.

Lemma read_response_inv (url : string) (resp : response) (rs : list pydict) :
  read_response url resp = Ok rs ->
  exists data organic ms,
    is_error_status (status_code resp) = false
    /\ json_body resp = Ok data
    /\ py_get data "organic" (JArr []) = Ok organic
    /\ py_iter organic = Ok (map JObj ms)
    /\ rs = map record_of_members ms.
Proof.
  unfold read_response, raise_for_status, is_error_status.
  destruct (json_body resp) as [data|e] eqn:Hbody;
    destruct ((400 <=? status_code resp)%Z) eqn:H4;
    destruct ((status_code resp <? 500)%Z) eqn:H5;
    destruct ((500 <=? status_code resp)%Z) eqn:H6;
    destruct ((status_code resp <? 600)%Z) eqn:H7;
    simpl; try discriminate; try lia;
    destruct (py_get data "organic" (JArr [])) as [organic|e] eqn:Hget;
    simpl; try discriminate;
    destruct (py_iter organic) as [items|e] eqn:Hiter;
    simpl; try discriminate;
    intros Hrun; apply collect_organic_inv in Hrun;
    destruct Hrun as [ms [Hitems Hrs]]; subst items;
    exists data, organic, ms; repeat split; auto.
Qed.

Lemma read_response_error_status (url : string) (resp : response) :
  is_error_status (status_code resp) = true ->
  exists e, read_response url resp = Raise e /\ exc_class e = "HTTPError".
Proof.
  unfold read_response, raise_for_status, is_error_status. intros Hcode.
  destruct ((400 <=? status_code resp)%Z) eqn:H4;
    destruct ((status_code resp <? 500)%Z) eqn:H5;
    destruct ((500 <=? status_code resp)%Z) eqn:H6;
    destruct ((status_code resp <? 600)%Z) eqn:H7;
    simpl in *; try discriminate; try lia;
    eexists; split; reflexivity.
Qed.

Lemma read_response_undecodable (url : string) (resp : response) (e : Exception) :
  json_body resp = Raise e ->
  exists e', read_response url resp = Raise e'.
Proof.
  unfold read_response. intros Hbody.
  destruct (raise_for_status url resp) as [[]|e0]; simpl.
  - rewrite Hbody. simpl. now exists e.
  - now exists e0.
Qed.

(** ** The shape of the records *)

Lemma record_has_result_keys (members : pydict) :
  has_result_keys (record_of_members members) = true.
Proof. reflexivity. Qed.

Section SearchWeb.
Context {W : Type} `{Services W} `{PyStr}.

(** [search_web], path by path. *)
Lemma search_web_eq (query : string) (num_results : Z) (w : W) :
  search_web query num_results w =
    match os_getenv "SERPER_API_KEY" w with
    | None => (Ok [], w, [EvPrint search_disabled_warning])
    | Some key =>
        if String.eqb key "" then (Ok [], w, [EvPrint search_disabled_warning])
        else
          let req := serper_request key query num_results in
          match requests_post req w with
          | (Ok resp, w1) =>
              match read_response serper_url resp with
              | Ok rs => (Ok rs, w1, [EvPost req])
              | Raise e =>
                  (Ok [], w1, [EvPost req; EvPrint ("Error in web search: " ++ exc_str e)])
              end
          | (Raise e, w1) =>
              (Ok [], w1, [EvPost req; EvPrint ("Error in web search: " ++ exc_str e)])
          end
    end.
Proof.
  unfold search_web, bind, getenv, try_except, post, lift, print, ret.
  destruct (os_getenv "SERPER_API_KEY" w) as [key|]; [|reflexivity].
  destruct (String.eqb key ""); [reflexivity|].
  cbv zeta.
  destruct (requests_post (serper_request key query num_results) w) as [[resp|e] w1];
    [|reflexivity].
  destruct (read_response serper_url resp); reflexivity.
Qed.

Lemma search_web_total (query : string) (num_results : Z) (w : W) :
  exists rs, outcome (search_web query num_results w) = Ok rs.
Proof.
  rewrite search_web_eq.
  destruct (os_getenv "SERPER_API_KEY" w) as [key|]; [|now exists []].
  destruct (String.eqb key ""); [now exists []|].
  cbv zeta.
  destruct (requests_post _ w) as [[resp|e] w1]; [|now exists []].
  destruct (read_response serper_url resp) as [rs|e]; [now exists rs|now exists []].
Qed.

(** Every list [search_web] returns is made of records built by the loop. *)
Lemma search_web_records (query : string) (num_results : Z) (w : W) (rs : list pydict) :
  outcome (search_web query num_results w) = Ok rs ->
  exists ms, rs = map record_of_members ms.
Proof.
  rewrite search_web_eq.
  destruct (os_getenv "SERPER_API_KEY" w) as [key|];
    [|intros Hrun; inversion Hrun; now exists []].
  destruct (String.eqb key ""); [intros Hrun; inversion Hrun; now exists []|].
  cbv zeta.
  destruct (requests_post _ w) as [[resp|e] w1];
    [|intros Hrun; inversion Hrun; now exists []].
  destruct (read_response serper_url resp) as [rs'|e] eqn:Hread;
    [|intros Hrun; inversion Hrun; now exists []].
  intros Hrun. inversion Hrun. subst rs'.
  apply read_response_inv in Hread.
  destruct Hread as (data & organic & ms & _ & _ & _ & _ & Hrs).
  now exists ms.
Qed.

(** [search_web] never calls the model. *)
Lemma search_web_prompts (query : string) (num_results : Z) (w : W) :
  prompts (events (search_web query num_results w)) = [].
Proof.
  rewrite search_web_eq.
  destruct (os_getenv "SERPER_API_KEY" w) as [key|]; [|reflexivity].
  destruct (String.eqb key ""); [reflexivity|].
  cbv zeta.
  destruct (requests_post _ w) as [[resp|e] w1]; [|reflexivity].
  destruct (read_response serper_url resp); reflexivity.
Qed.

(** The rendering of the records of [search_web] finds every key. *)
Lemma render_results_records (ms : list pydict) :
  render_results (map record_of_members ms) =
    Ok (map (fun m =>
               "Title: " ++ py_str (match dict_lookup "title" m with Some x => x | None => JStr "" end)
               ++ nl ++ "Snippet: "
               ++ py_str (match dict_lookup "snippet" m with Some x => x | None => JStr "" end)
               ++ nl ++ "Link: "
               ++ py_str (match dict_lookup "link" m with Some x => x | None => JStr "" end))
            ms).
Proof.
  induction ms as [|m ms IH]; [reflexivity|].
  simpl map. simpl render_results. rewrite IH. reflexivity.
Qed.
End SearchWeb.

(** ** Text *)

Lemma append_assoc (a b c : string) : (a ++ b) ++ c = a ++ b ++ c.
Proof. induction a as [|x a IH]; simpl; [reflexivity | now rewrite IH]. Qed.

Lemma append_empty_r (a : string) : a ++ "" = a.
Proof. induction a as [|x a IH]; simpl; [reflexivity | now rewrite IH]. Qed.

Lemma prefix_append (needle rest : string) : String.prefix needle (needle ++ rest) = true.
Proof.
  induction needle as [|c needle IH]; simpl.
  - destruct rest; reflexivity.
  - destruct (ascii_dec c c) as [_|Hne]; [exact IH | now destruct Hne].
Qed.

Lemma contains_eq (needle haystack : string) :
  contains needle haystack =
    String.prefix needle haystack
    || match haystack with
       | EmptyString => false
       | String _ rest => contains needle rest
       end.
Proof. destruct haystack; reflexivity. Qed.

Lemma contains_append (needle before after : string) :
  contains needle (before ++ needle ++ after) = true.
Proof.
  induction before as [|c before IH].
  - simpl. rewrite contains_eq, prefix_append. reflexivity.
  - rewrite contains_eq. simpl. rewrite IH. apply orb_true_r.
Qed.

Lemma join_in (sep block : string) (blocks : list string) :
  In block blocks ->
  exists before after, join sep blocks = before ++ block ++ after.
Proof.
  unfold join. induction blocks as [|b rest IH]; intros Hin; [destruct Hin|].
  destruct Hin as [->|Hin].
  - destruct rest as [|b' rest].
    + exists "", "". simpl. now rewrite append_empty_r.
    + exists "", (sep ++ String.concat sep (b' :: rest)). reflexivity.
  - destruct (IH Hin) as [before [after Heq]].
    destruct rest as [|b' rest]; [destruct Hin|].
    exists (b ++ sep ++ before), after.
    change (String.concat sep (b :: b' :: rest))
      with (b ++ sep ++ String.concat sep (b' :: rest)).
    rewrite Heq, !append_assoc. reflexivity.
Qed.

(** ** The parsing policy on 7-bit text *)

Lemma lstrip_split (s : string) :
  exists before, s = before ++ Demo.lstrip s /\ Demo.blank before = true.
Proof.
  induction s as [|c s [before [Hs Hblank]]].
  - exists "". split; reflexivity.
  - simpl. destruct (Demo.isspace c) eqn:Hc.
    + exists (String c before). split.
      * simpl. now rewrite <- Hs.
      * simpl. now rewrite Hc, Hblank.
    + exists "". split; reflexivity.
Qed.

Lemma rstrip_split (s : string) :
  exists after, s = Demo.rstrip s ++ after /\ Demo.blank after = true.
Proof.
  induction s as [|c s [after [Hs Hblank]]].
  - exists "". split; reflexivity.
  - simpl. destruct (Demo.rstrip s) as [|d kept] eqn:Hkept.
    + destruct (Demo.isspace c) eqn:Hc.
      * exists (String c s). split; [reflexivity|].
        simpl. rewrite Hc. simpl in Hs. now rewrite Hs.
      * exists after. split; [|exact Hblank]. simpl. simpl in Hs. now rewrite <- Hs.
    + exists after. split; [|exact Hblank]. simpl. simpl in Hs. now rewrite <- Hs.
Qed.

Lemma lstrip_blank (before s : string) :
  Demo.blank before = true -> Demo.lstrip (before ++ s) = Demo.lstrip s.
Proof.
  induction before as [|c before IH]; simpl; [reflexivity|].
  intros Hblank. apply andb_true_iff in Hblank. destruct Hblank as [Hc Hrest].
  rewrite Hc. now apply IH.
Qed.

Lemma rstrip_blank (after : string) :
  Demo.blank after = true -> Demo.rstrip after = "".
Proof.
  induction after as [|c after IH]; simpl; [reflexivity|].
  intros Hblank. apply andb_true_iff in Hblank. destruct Hblank as [Hc Hrest].
  now rewrite (IH Hrest), Hc.
Qed.

Lemma upper_char_inv (c : ascii) :
  (Demo.upper_char c = "Y"%char -> c = "Y"%char \/ c = "y"%char)
  /\ (Demo.upper_char c = "E"%char -> c = "E"%char \/ c = "e"%char)
  /\ (Demo.upper_char c = "S"%char -> c = "S"%char \/ c = "s"%char).
Proof.
  destruct c as [b0 b1 b2 b3 b4 b5 b6 b7].
  destruct b0, b1, b2, b3, b4, b5, b6, b7; vm_compute;
    repeat split; intros Heq; try discriminate Heq; auto.
Qed.

(** On 7-bit text the classifier output passes the test exactly when it is
    one of the eight spellings of YES between two runs of white space. *)
Lemma ascii_yes_iff (raw : string) :
  @str_upper Demo.ascii_str (@str_strip Demo.ascii_str raw) = "YES"
  <-> exists before core after,
        raw = before ++ core ++ after
        /\ Demo.blank before = true
        /\ Demo.blank after = true
        /\ In core Demo.yes_spellings.
Proof.
  change (@str_upper Demo.ascii_str (@str_strip Demo.ascii_str raw))
    with (Demo.upper (Demo.strip raw)).
  unfold Demo.strip. split.
  - intros Hyes.
    destruct (lstrip_split raw) as [before [Hraw Hbefore]].
    destruct (rstrip_split (Demo.lstrip raw)) as [after [Hleft Hafter]].
    exists before, (Demo.rstrip (Demo.lstrip raw)), after.
    split; [now rewrite <- Hleft|]. split; [exact Hbefore|]. split; [exact Hafter|].
    destruct (Demo.rstrip (Demo.lstrip raw)) as [|c1 [|c2 [|c3 [|c4 rest]]]];
      simpl in Hyes; try discriminate.
    inversion Hyes as [[H1 H2 H3]].
    destruct (proj1 (upper_char_inv c1) H1) as [-> | ->];
      destruct (proj1 (proj2 (upper_char_inv c2)) H2) as [-> | ->];
      destruct (proj2 (proj2 (upper_char_inv c3)) H3) as [-> | ->];
      simpl; tauto.
  - intros (before & core & after & -> & Hbefore & Hafter & Hcore).
    rewrite (lstrip_blank before _ Hbefore).
    pose proof (rstrip_blank after Hafter) as Hright.
    simpl in Hcore.
    repeat (destruct Hcore as [<- | Hcore]; [simpl; rewrite Hright; reflexivity|]).
    destruct Hcore.
Qed.

(** ** Events *)

Lemma posts_app (t1 t2 : list event) : posts (t1 ++ t2) = (posts t1 ++ posts t2)%list.
Proof.
  induction t1 as [|ev t1 IH]; [reflexivity|].
  destruct ev; simpl; now rewrite IH.
Qed.

Lemma prompts_app (t1 t2 : list event) : prompts (t1 ++ t2) = (prompts t1 ++ prompts t2)%list.
Proof.
  induction t1 as [|ev t1 IH]; [reflexivity|].
  destruct ev; simpl; now rewrite IH.
Qed.

Lemma handles_app (t1 t2 : list event) : handles (t1 ++ t2) = (handles t1 ++ handles t2)%list.
Proof.
  induction t1 as [|ev t1 IH]; [reflexivity|].
  destruct ev; simpl; now rewrite IH.
Qed.

(** ** The pipeline, path by path *)

Section PipelineLemmas.
Context {W : Type} `{Services W} `{PyStr}.

Lemma megabrain_steps_eq (llm : ChatAnthropic) (message_text : string) (w : W) :
  megabrain_steps llm message_text w =
    let question := question_check_prompt message_text in
    match chain_invoke llm question w with
    | (Raise e, w1) => (Raise e, w1, [EvInvoke llm question])
    | (Ok raw, w1) =>
        let '(found, w2, t2) := fetched message_text raw w1 in
        match synthesizer_prompt message_text found with
        | Raise e => (Raise e, w2, (EvInvoke llm question :: t2)%list)
        | Ok prompt =>
            match chain_invoke llm prompt w2 with
            | (Ok answer, w3) =>
                (Ok (str_strip answer), w3,
                 (EvInvoke llm question :: t2 ++ [EvInvoke llm prompt])%list)
            | (Raise e, w3) =>
                (Raise e, w3, (EvInvoke llm question :: t2 ++ [EvInvoke llm prompt])%list)
            end
        end
    end.
Proof.
  unfold megabrain_steps, fetched. cbv zeta.
  unfold bind at 1. unfold invoke at 1.
  destruct (chain_invoke llm (question_check_prompt message_text) w) as [[raw|e] w1];
    [|reflexivity].
  destruct (String.eqb (str_upper (str_strip raw)) "YES").
  - unfold bind, print, ret. cbn [stdout_write writable].
    destruct (search_web_total message_text 5 w1) as [rs Hrs].
    destruct (search_web message_text 5 w1) as [[r w2] t2].
    unfold outcome, world_after, events in *. simpl in Hrs. subst r. simpl.
    destruct rs as [|r0 rs]; unfold lift, invoke; simpl.
    + destruct (chain_invoke llm (response_prompt_no_results message_text) w2)
        as [[answer|e] w3]; simpl; rewrite ?app_nil_r, <- ?app_assoc; reflexivity.
    + destruct (format_search_context (r0 :: rs)) as [context|e]; simpl;
        [|rewrite ?app_nil_r, <- ?app_assoc; reflexivity].
      destruct (chain_invoke llm (response_prompt_with_results message_text context) w2)
        as [[answer|e] w3]; simpl; rewrite ?app_nil_r, <- ?app_assoc; reflexivity.
  - unfold bind, ret, invoke. simpl.
    destruct (chain_invoke llm (response_prompt_no_results message_text) w1)
      as [[answer|e] w3]; reflexivity.
Qed.

Lemma search_web_handles (query : string) (num_results : Z) (w : W) :
  handles (events (search_web query num_results w)) = [].
Proof.
  rewrite search_web_eq.
  destruct (os_getenv "SERPER_API_KEY" w) as [key|]; [|reflexivity].
  destruct (String.eqb key ""); [reflexivity|].
  cbv zeta.
  destruct (requests_post _ w) as [[resp|e] w1]; [|reflexivity].
  destruct (read_response serper_url resp); reflexivity.
Qed.

Lemma search_web_disabled (query : string) (num_results : Z) (w : W) :
  credential_present (os_getenv "SERPER_API_KEY" w) = false ->
  search_web query num_results w = (Ok [], w, [EvPrint search_disabled_warning]).
Proof.
  intros Habsent. rewrite search_web_eq.
  unfold credential_present in Habsent.
  destruct (os_getenv "SERPER_API_KEY" w) as [key|]; [|reflexivity].
  destruct (String.eqb key ""); [reflexivity | discriminate].
Qed.

Lemma search_web_failed (query : string) (num_results : Z) (w : W) (key : string) :
  os_getenv "SERPER_API_KEY" w = Some key ->
  key <> "" ->
  http_call_fails (serper_request key query num_results) w = true ->
  exists e,
    search_web query num_results w =
      (Ok [], snd (requests_post (serper_request key query num_results) w),
       [EvPost (serper_request key query num_results);
        EvPrint ("Error in web search: " ++ exc_str e)]).
Proof.
  intros Hkey Hne Hfails.
  rewrite search_web_eq, Hkey.
  apply String.eqb_neq in Hne. rewrite Hne. cbv zeta.
  unfold http_call_fails in Hfails.
  destruct (requests_post (serper_request key query num_results) w) as [[resp|e] w1];
    simpl in *; [|now exists e].
  assert (Hraise : exists e, read_response serper_url resp = Raise e).
  { apply orb_true_iff in Hfails. destruct Hfails as [Hstatus|Hbody].
    - destruct (read_response_error_status serper_url resp Hstatus) as [e [He _]].
      now exists e.
    - destruct (json_body resp) as [data|e] eqn:Hjson; [discriminate|].
      exact (read_response_undecodable serper_url resp e Hjson). }
  destruct Hraise as [e He]. rewrite He. now exists e.
Qed.

(** The blocks of the records of [search_web]. *)
Lemma records_rendered (ms : list pydict) :
  exists blocks,
    render_results (map record_of_members ms) = Ok blocks
    /\ Forall2 rendered_as (map record_of_members ms) blocks.
Proof.
  induction ms as [|m ms [blocks [Hrun Hall]]].
  - exists []. split; [reflexivity | constructor].
  - eexists. split.
    + simpl map. simpl render_results. rewrite Hrun. reflexivity.
    + simpl map. constructor; [|exact Hall].
      unfold rendered_as, record_of_members.
      do 3 eexists. repeat split; reflexivity.
Qed.

Lemma fetched_search (message_text raw : string) (w : W) :
  str_upper (str_strip raw) = "YES" ->
  exists found,
    outcome (search_web message_text 5 w) = Ok found
    /\ fetched message_text raw w =
         (found, world_after (search_web message_text 5 w),
          ([EvPrint ("🔍 Searching the web for: " ++ message_text)]
             ++ events (search_web message_text 5 w)
             ++ [EvPrint ("📊 Found " ++ str_of_nat (length found) ++ " search results")])%list).
Proof.
  intros Hyes. unfold fetched. rewrite Hyes. simpl String.eqb. cbv zeta.
  destruct (search_web_total message_text 5 w) as [found Hfound].
  exists found. split; [exact Hfound|]. now rewrite Hfound.
Qed.

Lemma fetched_skip (message_text raw : string) (w : W) :
  str_upper (str_strip raw) <> "YES" ->
  fetched message_text raw w = ([], w, []).
Proof.
  intros Hno. unfold fetched.
  apply String.eqb_neq in Hno. now rewrite Hno.
Qed.

(** The handler around the steps. *)
Lemma megabrain_improvement_eq (llm : ChatAnthropic) (message_text : string) (w : W) :
  megabrain_improvement llm message_text w =
    match megabrain_steps llm message_text w with
    | (Ok answer, w1, t1) => (Ok answer, w1, t1)
    | (Raise e, w1, t1) =>
        (Ok (fallback_response message_text), w1, (t1 ++ [error_line e])%list)
    end.
Proof.
  unfold megabrain_improvement, try_except.
  destruct (megabrain_steps llm message_text w) as [[[answer|e] w1] t1]; reflexivity.
Qed.

Lemma fetched_handles (message_text raw : string) (w : W) :
  handles (snd (fetched message_text raw w)) = [].
Proof.
  unfold fetched.
  destruct (String.eqb (str_upper (str_strip raw)) "YES"); [|reflexivity].
  cbv zeta. cbn [snd]. simpl handles.
  rewrite handles_app, search_web_handles. reflexivity.
Qed.

Lemma fetched_prompts (message_text raw : string) (w : W) :
  prompts (snd (fetched message_text raw w)) = [].
Proof.
  unfold fetched.
  destruct (String.eqb (str_upper (str_strip raw)) "YES"); [|reflexivity].
  cbv zeta. cbn [snd]. simpl prompts.
  rewrite prompts_app, search_web_prompts. reflexivity.
Qed.

(** What the pipeline fetched always renders: the synthesizer has its prompt. *)
Lemma synthesizer_prompt_of_fetched (message_text raw : string) (w : W) :
  exists prompt,
    synthesizer_prompt message_text (fst (fst (fetched message_text raw w))) = Ok prompt.
Proof.
  unfold fetched.
  destruct (String.eqb (str_upper (str_strip raw)) "YES"); [|eexists; reflexivity].
  cbv zeta. cbn [fst].
  destruct (search_web_total message_text 5 w) as [found Hfound]. rewrite Hfound.
  destruct (search_web_records _ _ _ _ Hfound) as [ms ->].
  destruct ms as [|m ms]; [eexists; reflexivity|].
  destruct (records_rendered (m :: ms)) as [blocks [Hrender _]].
  unfold synthesizer_prompt, format_search_context.
  simpl map in *. rewrite Hrender. eexists. reflexivity.
Qed.

(** So the steps raise only what a call to the model raised: a search that
    fails never puts the pipeline on the fallback path. *)
Lemma megabrain_steps_raise_from_model
    (llm : ChatAnthropic) (message_text : string) (w : W) (e : Exception) :
  outcome (megabrain_steps llm message_text w) = Raise e ->
  exists prompt w', fst (chain_invoke llm prompt w') = Raise e.
Proof.
  rewrite megabrain_steps_eq. cbv zeta.
  destruct (chain_invoke llm (question_check_prompt message_text) w) as [[raw|e0] w1] eqn:Hq.
  - destruct (synthesizer_prompt_of_fetched message_text raw w1) as [prompt Hprompt].
    destruct (fetched message_text raw w1) as [[found w2] t2]. cbn [fst] in Hprompt.
    rewrite Hprompt.
    destruct (chain_invoke llm prompt w2) as [[answer|e1] w3] eqn:Hs;
      unfold outcome; simpl; intros Hraise; [discriminate|].
    inversion Hraise. subst e1. exists prompt, w2. now rewrite Hs.
  - unfold outcome; simpl; intros Hraise. inversion Hraise. subst e0.
    exists (question_check_prompt message_text), w. now rewrite Hq.
Qed.

End PipelineLemmas.

(** * The claims *)

Section Claims.
Context {W : Type} `{Services W} `{PyStr}.


(** C10. Every list [search_web] returns consists of records that hold the
    three keys title, snippet and link, so the formatting step of the
    pipeline, which reads them by key, returns the context and raises no
    KeyError on it. *)
Theorem search_web_results_have_all_keys (query : string) (num_results : Z) (w : W) :
  exists rs,
    outcome (search_web query num_results w) = Ok rs
    /\ Forall (fun r => has_result_keys r = true) rs
    /\ exists search_context, format_search_context rs = Ok search_context.
Proof.
  destruct (search_web_total query num_results w) as [rs Hrs].
  exists rs. split; [exact Hrs|].
  destruct (search_web_records _ _ _ _ Hrs) as [ms ->].
  split.
  - apply Forall_forall. intros r Hin.
    apply in_map_iff in Hin. destruct Hin as [m [<- _]].
    apply record_has_result_keys.
  - unfold format_search_context. rewrite render_results_records.
    simpl. eexists. reflexivity.
Qed.


(** C9, as amended. The model credential is read once, when
    [create_megabrain_agent] builds the handle that every call of the
    agent then uses.  The search credential is read by each call of
    [search_web] from the environment as it is at that call: the call
    sends a request exactly when the value is present then, so two calls
    agree on search being enabled whenever the credential is present at
    both or absent at both. *)
Theorem credentials_are_read_where_used (query : string) (num_results : Z) (w : W) :
  posts (events (search_web query num_results w)) =
    match os_getenv "SERPER_API_KEY" w with
    | Some key => if String.eqb key "" then [] else [serper_request key query num_results]
    | None => []
    end
  /\ (forall w',
        credential_present (os_getenv "SERPER_API_KEY" w')
          = credential_present (os_getenv "SERPER_API_KEY" w) ->
        (posts (events (search_web query num_results w')) = []
         <-> posts (events (search_web query num_results w)) = []))
  /\ create_megabrain_agent w =
       (Ok (megabrain_improvement
              {| api_key := os_getenv "ANTHROPIC_API_KEY" w;
                 model := "claude-3-sonnet-20240229" |}),
        w, [])
  /\ (forall llm message_text w',
        Forall (eq llm) (handles (events (megabrain_improvement llm message_text w')))).
Proof.
  assert (Hposts : forall w0,
             posts (events (search_web query num_results w0)) =
               match os_getenv "SERPER_API_KEY" w0 with
               | Some key =>
                   if String.eqb key "" then [] else [serper_request key query num_results]
               | None => []
               end).
  { intros w0. rewrite search_web_eq.
    destruct (os_getenv "SERPER_API_KEY" w0) as [key|]; [|reflexivity].
    destruct (String.eqb key ""); [reflexivity|].
    cbv zeta.
    destruct (requests_post _ w0) as [[resp|e] w1]; [|reflexivity].
    destruct (read_response serper_url resp); reflexivity. }
  split; [apply Hposts|]. split; [|split; [reflexivity|]].
  - intros w' Hsame. rewrite !Hposts.
    unfold credential_present in Hsame.
    destruct (os_getenv "SERPER_API_KEY" w') as [key'|];
      destruct (os_getenv "SERPER_API_KEY" w) as [key|];
      try destruct (String.eqb key' ""); try destruct (String.eqb key "");
      simpl in Hsame; try discriminate; split; intros Heq;
      try reflexivity; try discriminate.
  - intros llm message_text w'.
    rewrite megabrain_improvement_eq, megabrain_steps_eq. cbv zeta.
    destruct (chain_invoke llm (question_check_prompt message_text) w') as [[raw|e] w1].
    + pose proof (fetched_handles message_text raw w1) as Hquiet.
      destruct (fetched message_text raw w1) as [[found w2] t2]. simpl in Hquiet.
      destruct (synthesizer_prompt message_text found) as [prompt|e].
      * destruct (chain_invoke llm prompt w2) as [[answer|e] w3];
          unfold events; simpl; rewrite !handles_app, Hquiet; simpl;
          repeat constructor.
      * unfold events; simpl. rewrite !handles_app, Hquiet; simpl.
        repeat constructor.
    + unfold events; simpl. repeat constructor.
Qed.
End Claims.

(** * The scripted world at work *)

Import Demo Worlds.

(** The parsing policy on 7-bit outputs. *)
Example parsing_policy_examples :
  map (fun raw => String.eqb (str_upper (str_strip raw)) "YES")
      ["YES"; "yes"; " Yes  "; yes_with_blanks; "NO"; ""; "yes."; "maybe"; "YES YES"; "Y E S"]
  = [true; true; true; true; false; false; false; false; false; false].
Proof. vm_compute. reflexivity. Qed.

(** Scenario 1 of the specification: no search, a direct answer. *)
Example scenario_no_search :
  let run := megabrain_improvement llm "What's 2+2?" says_no in
  outcome run = Ok "2+2 is 4."
  /\ posts (events run) = []
  /\ prompts (events run) =
       [question_check_prompt "What's 2+2?"; response_prompt_no_results "What's 2+2?"].
Proof. vm_compute. repeat split. Qed.

(** Scenario 2: three results, rendered into the with-results prompt. *)
Example scenario_three_results :
  let run := megabrain_improvement llm gold_question gold in
  outcome run = Ok "Gold trades near its high."
  /\ posts (events run) = [serper_request "k" gold_question 5]
  /\ printed (events run) =
       ["🔍 Searching the web for: What is the current price of gold?";
        "📊 Found 3 search results"].
Proof. vm_compute. repeat split. Qed.

(** Scenario 3: the search fails, the pipeline answers all the same. *)
Example scenario_search_down :
  let run := megabrain_improvement llm news_question search_down in
  outcome run = Ok "Here is what I know."
  /\ printed (events run) =
       ["🔍 Searching the web for: Tell me about today's news";
        "Error in web search: Connection refused";
        "📊 Found 0 search results"]
  /\ prompts (events run) =
       [question_check_prompt news_question; response_prompt_no_results news_question].
Proof. vm_compute. repeat split. Qed.

(** Scenario 4: the model fails, at the first call or at the second. *)
Example scenario_model_down :
  outcome (megabrain_improvement llm news_question model_down)
    = Ok (fallback_response news_question)
  /\ outcome (megabrain_improvement llm gold_question synthesizer_down)
    = Ok (fallback_response gold_question)
  /\ printed (events (megabrain_improvement llm news_question model_down))
    = ["Error in megabrain improvement: Connection error."].
Proof. vm_compute. repeat split. Qed.

(** What the loop does with an organic list that is not a list of objects. *)
Example odd_organic_lists :
  map (fun organic => read_response serper_url
                        {| status_code := 200; reason := "OK";
                           json_body := Ok (JObj [("organic", organic)]) |})
      [JNull; JStr ""; JStr "ab"; JObj []; JArr [JInt 1]; JInt 3]
  = [Raise (TypeError "'NoneType' object is not iterable");
     Ok [];
     Raise (AttributeError "'str' object has no attribute 'get'");
     Ok [];
     Raise (AttributeError "'int' object has no attribute 'get'");
     Raise (TypeError "'int' object is not iterable")].
Proof. vm_compute. reflexivity. Qed.

(** * Counterexamples to the claims as first stated *)

(** C8 as stated fails: asked for five results, the provider answers with
    six organic entries, and [search_web] returns all six. *)
Lemma search_web_returns_six_for_five :
  exists rs,
    outcome (search_web "q" 5 six_entries) = Ok rs
    /\ length rs = 6
    /\ ~ (Z.of_nat (length rs) <= 5)%Z.
Proof.
  eexists. split; [vm_compute; reflexivity|]. split; [reflexivity|].
  simpl. lia.
Qed.

(** C9 as stated fails: in one process, a first call finds no credential and
    sends nothing; the variable is then set, and the second call sends the
    request. *)
Lemma search_credential_read_at_each_call :
  let first := search_web "gold" 5 no_credential in
  let second := search_web "gold" 5 (setenv "SERPER_API_KEY" "k" (world_after first)) in
  posts (events first) = []
  /\ posts (events second) = [serper_request "k" "gold" 5]
  /\ posts (events first) <> posts (events second).
Proof.
  cbv zeta. split; [vm_compute; reflexivity|]. split; [vm_compute; reflexivity|].
  vm_compute. discriminate.
Qed.

(** * The theorems at concrete inputs *)



(** C9 at work: two worlds that both hold a credential agree on searching. *)
Lemma credentials_are_read_where_used_witness :
  credential_present (os_getenv "SERPER_API_KEY" gold)
    = credential_present (os_getenv "SERPER_API_KEY" six_entries)
  /\ (posts (events (search_web "q" 5 gold)) = []
      <-> posts (events (search_web "q" 5 six_entries)) = []).
Proof.
  assert (Hsame : credential_present (os_getenv "SERPER_API_KEY" gold)
                  = credential_present (os_getenv "SERPER_API_KEY" six_entries))
    by reflexivity.
  split; [exact Hsame|].
  exact (proj1 (proj2 (credentials_are_read_where_used "q" 5 six_entries)) gold Hsame).
Defined.

(** * Further properties of the code *)

(** ** The storyteller template is the text of the source *)

Lemma story_template_lengths :
  String.length story_before_message = 380
  /\ String.length story_after_message = 30.
Proof. split; vm_compute; reflexivity. Qed.

(** ** search_web on the shapes a body can take *)

Lemma raise_for_status_quiet (url : string) (resp : response) :
  is_error_status (status_code resp) = false -> raise_for_status url resp = Ok tt.
Proof.
  unfold raise_for_status, is_error_status. intros Hcode.
  destruct ((400 <=? status_code resp)%Z) eqn:H4;
    destruct ((status_code resp <? 500)%Z) eqn:H5;
    destruct ((500 <=? status_code resp)%Z) eqn:H6;
    destruct ((status_code resp <? 600)%Z) eqn:H7;
    simpl in *; try discriminate; try reflexivity; lia.
Qed.


Section SearchWebShapes.
Context {W : Type} `{Services W}.

(** The request sent, if any, by a call of [search_web]. *)
Lemma search_web_posts (query : string) (num_results : Z) (w : W) :
  posts (events (search_web query num_results w)) =
    match os_getenv "SERPER_API_KEY" w with
    | Some key => if String.eqb key "" then [] else [serper_request key query num_results]
    | None => []
    end.
Proof.
  rewrite search_web_eq.
  destruct (os_getenv "SERPER_API_KEY" w) as [key|]; [|reflexivity].
  destruct (String.eqb key ""); [reflexivity|].
  cbv zeta.
  destruct (requests_post _ w) as [[resp|e] w1]; [|reflexivity].
  destruct (read_response serper_url resp); reflexivity.
Qed.

(** What [search_web] does once the provider has answered. *)
Lemma search_web_answered (query : string) (num_results : Z) (w : W) (key : string)
    (resp : response) (w1 : W) :
  os_getenv "SERPER_API_KEY" w = Some key ->
  key <> "" ->
  requests_post (serper_request key query num_results) w = (Ok resp, w1) ->
  search_web query num_results w =
    match read_response serper_url resp with
    | Ok rs => (Ok rs, w1, [EvPost (serper_request key query num_results)])
    | Raise e =>
        (Ok [], w1,
         [EvPost (serper_request key query num_results);
          EvPrint ("Error in web search: " ++ exc_str e)])
    end.
Proof.
  intros Hkey Hne Hpost. rewrite search_web_eq, Hkey.
  apply String.eqb_neq in Hne. rewrite Hne. cbv zeta. rewrite Hpost. reflexivity.
Qed.

(** X1. When the provider answers with a status that is not an error and a
    body whose organic member is a list of objects, [search_web] returns one
    record per object, in the order of the list, sends that one request and
    logs nothing.  Each record has exactly the keys title, snippet and link:
    a field the object lacks is the empty string, and the other members of
    the object are dropped. *)
Theorem search_web_returns_the_organic_records
    (query : string) (num_results : Z) (w : W) (key : string)
    (resp : response) (w1 : W) (members : pydict) (ms : list pydict) :
  os_getenv "SERPER_API_KEY" w = Some key ->
  key <> "" ->
  requests_post (serper_request key query num_results) w = (Ok resp, w1) ->
  is_error_status (status_code resp) = false ->
  json_body resp = Ok (JObj members) ->
  dict_lookup "organic" members = Some (JArr (map JObj ms)) ->
  search_web query num_results w =
    (Ok (map record_of_members ms), w1, [EvPost (serper_request key query num_results)])
  /\ Forall2
       (fun m r =>
          map fst r = ["title"; "snippet"; "link"]
          /\ forall field,
               In field ["title"; "snippet"; "link"] ->
               dict_lookup field r =
                 Some (match dict_lookup field m with Some x => x | None => JStr "" end))
       ms (map record_of_members ms).
Proof.
  intros Hkey Hne Hpost Hstatus Hbody Horganic. split.
  - rewrite (search_web_answered _ _ _ _ _ _ Hkey Hne Hpost).
    unfold read_response. rewrite (raise_for_status_quiet _ _ Hstatus), Hbody.
    simpl. rewrite Horganic. simpl. rewrite collect_organic_objects. reflexivity.
  - clear. induction ms as [|m ms IH]; simpl; constructor; [|exact IH].
    split; [reflexivity|].
    intros field [<-|[<-|[<-|[]]]]; reflexivity.
Qed.


(** X3. A body that is an object without an organic member is an answer with
    no result, not a failure: [search_web] returns the empty list and logs
    nothing. *)
Theorem search_web_without_organic_member
    (query : string) (num_results : Z) (w : W) (key : string)
    (resp : response) (w1 : W) (members : pydict) :
  os_getenv "SERPER_API_KEY" w = Some key ->
  key <> "" ->
  requests_post (serper_request key query num_results) w = (Ok resp, w1) ->
  is_error_status (status_code resp) = false ->
  json_body resp = Ok (JObj members) ->
  dict_lookup "organic" members = None ->
  search_web query num_results w =
    (Ok [], w1, [EvPost (serper_request key query num_results)]).
Proof.
  intros Hkey Hne Hpost Hstatus Hbody Horganic.
  rewrite (search_web_answered _ _ _ _ _ _ Hkey Hne Hpost).
  unfold read_response. rewrite (raise_for_status_quiet _ _ Hstatus), Hbody.
  simpl. rewrite Horganic. reflexivity.
Qed.

End SearchWebShapes.

(** ** The pipeline as a whole *)

Lemma printed_app (t1 t2 : list event) : printed (t1 ++ t2) = (printed t1 ++ printed t2)%list.
Proof.
  induction t1 as [|ev t1 IH]; [reflexivity|].
  destruct ev; simpl; now rewrite IH.
Qed.

Section PipelineRuns.
Context {W : Type} `{Services W} `{PyStr}.

Lemma fetched_posts (message_text raw : string) (w : W) :
  posts (snd (fetched message_text raw w)) =
    if String.eqb (str_upper (str_strip raw)) "YES"
    then posts (events (search_web message_text 5 w))
    else [].
Proof.
  unfold fetched.
  destruct (String.eqb (str_upper (str_strip raw)) "YES"); [|reflexivity].
  cbv zeta. cbn [snd]. simpl posts.
  rewrite posts_app. simpl. now rewrite app_nil_r.
Qed.

Lemma synthesizer_prompt_contains (message_text prompt : string) (found : list pydict) :
  synthesizer_prompt message_text found = Ok prompt ->
  contains message_text prompt = true.
Proof.
  unfold synthesizer_prompt. destruct found as [|r rs].
  - intros Heq. inversion Heq. apply contains_append.
  - destruct (format_search_context (r :: rs)) as [context|e]; simpl; [|discriminate].
    intros Heq. inversion Heq. apply contains_append.
Qed.


(** X8. Every prompt the pipeline sends to the model holds the message of
    the user as it was given, in the classifier call as in the second one. *)
Theorem every_prompt_holds_the_message
    (llm : ChatAnthropic) (message_text : string) (w : W) :
  Forall (fun prompt => contains message_text prompt = true)
         (prompts (events (megabrain_improvement llm message_text w))).
Proof.
  assert (Hquestion : contains message_text (question_check_prompt message_text) = true)
    by apply contains_append.
  rewrite megabrain_improvement_eq, megabrain_steps_eq. cbv zeta.
  destruct (chain_invoke llm (question_check_prompt message_text) w) as [[raw|e] w1].
  - pose proof (fetched_prompts message_text raw w1) as Hquiet.
    destruct (fetched message_text raw w1) as [[found w2] t2]. cbn [snd] in Hquiet.
    destruct (synthesizer_prompt message_text found) as [prompt|e] eqn:Hprompt.
    + apply synthesizer_prompt_contains in Hprompt.
      destruct (chain_invoke llm prompt w2) as [[answer|e] w3];
        unfold events; simpl; rewrite !prompts_app, Hquiet; simpl;
        repeat constructor; assumption.
    + unfold events; simpl. rewrite !prompts_app, Hquiet. simpl.
      repeat constructor; assumption.
  - unfold events; simpl. repeat constructor; assumption.
Qed.

End PipelineRuns.

(** ** The storyteller *)

Section StorytellerRuns.
Context {W : Type} `{Services W} `{PyStr}.

Lemma storyteller_improvement_eq (llm : ChatAnthropic) (message_text : string) (w : W) :
  storyteller_improvement llm message_text w =
    match chain_invoke llm (storyteller_prompt message_text) w with
    | (Ok story, w1) =>
        (Ok (str_strip story), w1, [EvInvoke llm (storyteller_prompt message_text)])
    | (Raise e, w1) =>
        (Ok (storyteller_fallback message_text), w1,
         [EvInvoke llm (storyteller_prompt message_text);
          EvPrint ("Error in storyteller improvement: " ++ exc_str e)])
    end.
Proof.
  unfold storyteller_improvement, try_except, bind, invoke, print, ret.
  destruct (chain_invoke llm (storyteller_prompt message_text) w) as [[story|e] w1];
    reflexivity.
Qed.

(** X11. [storyteller_improvement] calls the model exactly once, with its
    template around the message as given, never retries, and sends nothing
    to the search service. *)
Theorem storyteller_calls_the_model_once
    (llm : ChatAnthropic) (message_text : string) (w : W) :
  let run := storyteller_improvement llm message_text w in
  prompts (events run) = [storyteller_prompt message_text]
  /\ handles (events run) = [llm]
  /\ posts (events run) = []
  /\ contains message_text (storyteller_prompt message_text) = true.
Proof.
  cbv zeta. rewrite storyteller_improvement_eq.
  destruct (chain_invoke llm (storyteller_prompt message_text) w) as [[reply|e] w1];
    repeat split; try reflexivity; apply contains_append.
Qed.

(** X12. The agent [create_storyteller_improvement] returns reads the model
    credential once, when it is created: in whatever world the agent later
    runs, its call to the model goes through the haiku handle that holds
    the value ANTHROPIC_API_KEY had at creation. *)
Theorem storyteller_credential_is_read_at_creation (w : W) :
  exists agent,
    create_storyteller_improvement w = (Ok agent, w, [])
    /\ forall message_text w',
         handles (events (agent message_text w')) =
           [{| api_key := os_getenv "ANTHROPIC_API_KEY" w;
               model := "claude-3-haiku-20240307" |}].
Proof.
  eexists. split; [reflexivity|].
  intros message_text w'. rewrite storyteller_improvement_eq.
  destruct (chain_invoke _ (storyteller_prompt message_text) w') as [[reply|e] w1];
    reflexivity.
Qed.
End StorytellerRuns.

(** ** The two main functions *)

Lemma host_calls_app {W : Type} (t1 t2 : list (host_event W)) :
  host_calls (t1 ++ t2) = (host_calls t1 ++ host_calls t2)%list.
Proof.
  induction t1 as [|ev t1 IH]; [reflexivity|].
  destruct ev; simpl; now rewrite IH.
Qed.

Section MainRuns.
Context {W : Type} `{Services W} `{PyStr} `{Hosting W}.

End MainRuns.

Section MainClaims.
Context {W : Type} `{Services W} `{PyStr} `{Hosting W}.

Lemma megabrain_main_eq (w : W) :
  credential_present (os_getenv "ANTHROPIC_API_KEY" w) = true ->
  let logic :=
    megabrain_improvement
      {| api_key := os_getenv "ANTHROPIC_API_KEY" w; model := "claude-3-sonnet-20240229" |} in
  let warned := map (fun line => Ran (EvPrint line)) (serper_warning_lines w) in
  megabrain_main w =
    match nanda_new logic w with
    | (Raise e, w1) => (Raise e, w1, (warned ++ [NandaNew logic])%list)
    | (Ok _, w1) =>
        let '(r, w2, t) := serve logic w1 in
        (r, w2,
         (warned
            ++ [NandaNew logic;
                Ran (EvPrint "Starting Megabrain Agent with LangChain and Web Search...");
                Ran (EvPrint "I can answer questions using current web information!")]
            ++ t)%list)
    end.
Proof.
  intros Hkey logic warned. subst warned. unfold serper_warning_lines.
  unfold megabrain_main.
  unfold host_bind at 1. unfold agent_code at 1. unfold getenv at 1.
  rewrite Hkey. cbn [negb map app].
  unfold host_bind at 1. unfold agent_code at 1. unfold getenv at 1.
  cbn [map app].
  unfold host_bind at 1.
  assert (Hwarn :
    (if negb (credential_present (os_getenv "SERPER_API_KEY" w))
     then host_bind
            (agent_code
               (print "Warning: SERPER_API_KEY not found. Web search will be disabled."))
            (fun _ =>
               agent_code
                 (print "To enable web search, get a free API key from https://serper.dev/"))
     else host_ret tt) w
    = (Ok tt, w,
       map (fun line => Ran (EvPrint line))
         (if credential_present (os_getenv "SERPER_API_KEY" w) then []
          else ["Warning: SERPER_API_KEY not found. Web search will be disabled.";
                "To enable web search, get a free API key from https://serper.dev/"]))).
  { destruct (credential_present (os_getenv "SERPER_API_KEY" w)); reflexivity. }
  rewrite Hwarn. clear Hwarn.
  unfold host_bind at 1. unfold agent_code at 1.
  unfold create_megabrain_agent, bind, getenv, ret. cbn [map app].
  fold logic.
  unfold host_bind at 1. unfold NANDA at 1.
  destruct (nanda_new logic w) as [[[]|e] w1]; [|cbn [app]; reflexivity].
  unfold host_bind at 1. unfold agent_code at 1. unfold print at 1.
  cbn [stdout_write writable map app].
  unfold host_bind at 1. unfold agent_code at 1. unfold print at 1.
  cbn [stdout_write writable map app].
  destruct (serve logic w1) as [[r w2] t]. reflexivity.
Qed.

Lemma storyteller_main_eq (w : W) :
  credential_present (os_getenv "ANTHROPIC_API_KEY" w) = true ->
  let logic :=
    storyteller_improvement
      {| api_key := os_getenv "ANTHROPIC_API_KEY" w; model := "claude-3-haiku-20240307" |} in
  storyteller_main w =
    match nanda_new logic w with
    | (Raise e, w1) => (Raise e, w1, [NandaNew logic])
    | (Ok _, w1) =>
        let '(r, w2, t) := serve logic w1 in
        (r, w2,
         ([NandaNew logic;
           Ran (EvPrint "Starting Storyteller Agent with LangChain...");
           Ran (EvPrint "All messages will be transformed into short stories!")]
            ++ t)%list)
    end.
Proof.
  intros Hkey logic.
  unfold storyteller_main.
  unfold host_bind at 1. unfold agent_code at 1. unfold getenv at 1.
  rewrite Hkey. cbn [negb map app].
  unfold host_bind at 1. unfold agent_code at 1.
  unfold create_storyteller_improvement, bind, getenv, ret. cbn [map app].
  fold logic.
  unfold host_bind at 1. unfold NANDA at 1.
  destruct (nanda_new logic w) as [[[]|e] w1]; [|reflexivity].
  unfold host_bind at 1. unfold agent_code at 1. unfold print at 1.
  cbn [stdout_write writable map app].
  unfold host_bind at 1. unfold agent_code at 1. unfold print at 1.
  cbn [stdout_write writable map app].
  destruct (serve logic w1) as [[r w2] t]. reflexivity.
Qed.
End MainClaims.

Lemma host_printed_app {W : Type} (t1 t2 : list (host_event W)) :
  host_printed (t1 ++ t2) = (host_printed t1 ++ host_printed t2)%list.
Proof.
  induction t1 as [|ev t1 IH]; [reflexivity|].
  destruct ev as [[line|req|llm prompt]|logic|logic|logic key domain]; simpl; now rewrite IH.
Qed.

Lemma host_calls_lines {W : Type} (lines : list string) :
  host_calls (map (fun line => @Ran W (EvPrint line)) lines) = [].
Proof. induction lines as [|line lines IH]; [reflexivity | exact IH]. Qed.

Lemma host_printed_lines {W : Type} (lines : list string) :
  host_printed (map (fun line => @Ran W (EvPrint line)) lines) = lines.
Proof. induction lines as [|line lines IH]; [reflexivity | simpl; now rewrite IH]. Qed.

Section MainTheorems.
Context {W : Type} `{Services W} `{PyStr} `{Hosting W}.





(** X16. Neither main function catches anything: when the framework cannot
    be set up, the exception of its constructor is what [main] raises, after
    the constructor was called and before any start-up line is printed or
    any server started. *)
Theorem main_raises_what_the_framework_raises (w : W) (e : Exception) :
  credential_present (os_getenv "ANTHROPIC_API_KEY" w) = true ->
  (forall w1,
     nanda_new
       (megabrain_improvement
          {| api_key := os_getenv "ANTHROPIC_API_KEY" w;
             model := "claude-3-sonnet-20240229" |}) w = (Raise e, w1) ->
     host_outcome (megabrain_main w) = Raise e
     /\ host_calls (host_events (megabrain_main w)) =
          [NandaNew (megabrain_improvement
                       {| api_key := os_getenv "ANTHROPIC_API_KEY" w;
                          model := "claude-3-sonnet-20240229" |})]
     /\ host_printed (host_events (megabrain_main w)) = serper_warning_lines w)
  /\ (forall w1,
        nanda_new
          (storyteller_improvement
             {| api_key := os_getenv "ANTHROPIC_API_KEY" w;
                model := "claude-3-haiku-20240307" |}) w = (Raise e, w1) ->
        host_outcome (storyteller_main w) = Raise e
        /\ host_calls (host_events (storyteller_main w)) =
             [NandaNew (storyteller_improvement
                          {| api_key := os_getenv "ANTHROPIC_API_KEY" w;
                             model := "claude-3-haiku-20240307" |})]
        /\ host_printed (host_events (storyteller_main w)) = []).
Proof.
  intros Hkey. split; intros w1 Hnew.
  - rewrite (megabrain_main_eq w Hkey). cbv zeta. rewrite Hnew.
    unfold host_outcome, host_events. cbn [fst snd].
    split; [reflexivity|]. split.
    + rewrite host_calls_app, host_calls_lines. reflexivity.
    + rewrite host_printed_app, host_printed_lines. cbn [host_printed].
      apply app_nil_r.
  - rewrite (storyteller_main_eq w Hkey). cbv zeta. rewrite Hnew.
    repeat split.
Qed.

End MainTheorems.

(** * The further properties at concrete inputs *)

Import HostDemo.

(** X1 at work: three entries, the second without a snippet. *)
Lemma search_web_returns_the_organic_records_witness :
  os_getenv "SERPER_API_KEY" gold = Some "k"
  /\ outcome (search_web gold_question 5 gold) = Ok (map record_of_members gold_members)
  /\ printed (events (search_web gold_question 5 gold)) = []
  /\ map (dict_lookup "snippet") (map record_of_members gold_members)
       = [Some (JStr "Spot gold is trading"); Some (JStr ""); Some (JStr "Charts")].
Proof.
  assert (Hkey : os_getenv "SERPER_API_KEY" gold = Some "k") by reflexivity.
  assert (Hne : "k" <> "") by discriminate.
  assert (Hpost : requests_post (serper_request "k" gold_question 5) gold
                  = (Ok {| status_code := 200; reason := "OK"; json_body := Ok gold_hits |},
                     snd (requests_post (serper_request "k" gold_question 5) gold)))
    by reflexivity.
  destruct (search_web_returns_the_organic_records gold_question 5 gold "k" _ _
              [("organic", JArr (map JObj gold_members))] gold_members
              Hkey Hne Hpost eq_refl eq_refl eq_refl) as [Hrun _].
  split; [exact Hkey|]. rewrite Hrun. repeat split.
Defined.


(** X3 at work: a body with search parameters and credits only. *)
Lemma search_web_without_organic_member_witness :
  dict_lookup "organic"
    [("searchParameters", JObj [("q", JStr "gold")]); ("credits", JInt 1)] = None
  /\ search_web "q" 5 (answering no_organic) =
       (Ok [], snd (requests_post (serper_request "k" "q" 5) (answering no_organic)),
        [EvPost (serper_request "k" "q" 5)]).
Proof.
  split; [reflexivity|].
  assert (Hkey : os_getenv "SERPER_API_KEY" (answering no_organic) = Some "k")
    by reflexivity.
  assert (Hne : "k" <> "") by discriminate.
  assert (Hpost : requests_post (serper_request "k" "q" 5) (answering no_organic)
                  = (Ok {| status_code := 200; reason := "OK"; json_body := Ok no_organic |},
                     snd (requests_post (serper_request "k" "q" 5) (answering no_organic))))
    by reflexivity.
  exact (search_web_without_organic_member "q" 5 (answering no_organic) "k" _ _ _
           Hkey Hne Hpost eq_refl eq_refl eq_refl).
Defined.






(** X16 at work: the framework cannot bind its port. *)
Lemma main_raises_what_the_framework_raises_witness :
  credential_present (os_getenv "ANTHROPIC_API_KEY" development) = true
  /\ host_outcome (@megabrain_main world services ascii_str broken writable development)
       = Raise PortInUse
  /\ host_outcome (@storyteller_main world services ascii_str broken writable development)
       = Raise PortInUse.
Proof.
  assert (Hkey : credential_present (os_getenv "ANTHROPIC_API_KEY" development) = true)
    by reflexivity.
  split; [exact Hkey|].
  destruct (@main_raises_what_the_framework_raises world services ascii_str broken
              development PortInUse Hkey) as [Hmegabrain Hstoryteller].
  split.
  - exact (proj1 (Hmegabrain development eq_refl)).
  - exact (proj1 (Hstoryteller development eq_refl)).
Defined.


(** An empty DOMAIN_NAME is a domain other than localhost. *)
Example empty_domain_name_is_production :
  @server_call world services (megabrain_improvement (sonnet (Some "sk-ant")))
    (env_only [("ANTHROPIC_API_KEY", "sk-ant"); ("DOMAIN_NAME", "")])
  = StartServerApi (megabrain_improvement (sonnet (Some "sk-ant"))) (Some "sk-ant") "".
Proof. reflexivity. Qed.

End WritableConsole.

(** * Properties on any console

    From here on the console is arbitrary: each [print] writes its line or
    raises what the stream raises. *)

Section ConsoleRuns.
Context {W : Type} `{Services W} `{PyStr} `{Stdout W}.

(** [search_web], path by path. *)
Lemma console_search_web_eq (query : string) (num_results : Z) (w : W) :
  search_web query num_results w =
    match os_getenv "SERPER_API_KEY" w with
    | None => logged [] search_disabled_warning [] w
    | Some key =>
        if String.eqb key "" then logged [] search_disabled_warning [] w
        else
          let req := serper_request key query num_results in
          match requests_post req w with
          | (Ok resp, w1) =>
              match read_response serper_url resp with
              | Ok rs => (Ok rs, w1, [EvPost req])
              | Raise e => logged [EvPost req] (search_error_line e) [] w1
              end
          | (Raise e, w1) => logged [EvPost req] (search_error_line e) [] w1
          end
    end.
Proof.
  unfold search_web, bind, getenv, try_except, post, lift, print, ret,
    logged, search_error_line.
  destruct (os_getenv "SERPER_API_KEY" w) as [key|].
  - destruct (String.eqb key "").
    + destruct (stdout_write search_disabled_warning w) as [[[]|e] w1]; reflexivity.
    + cbv zeta.
      destruct (requests_post (serper_request key query num_results) w) as [[resp|e] w1].
      * destruct (read_response serper_url resp) as [rs|e]; [reflexivity|].
        destruct (stdout_write ("Error in web search: " ++ exc_str e) w1)
          as [[[]|e'] w2]; reflexivity.
      * destruct (stdout_write ("Error in web search: " ++ exc_str e) w1)
          as [[[]|e'] w2]; reflexivity.
  - destruct (stdout_write search_disabled_warning w) as [[[]|e] w1]; reflexivity.
Qed.

Lemma logged_cases {A : Type} (before : list event) (line : string) (value : A) (w : W) :
  (exists w1,
     stdout_write line w = (Ok tt, w1)
     /\ logged before line value w = (Ok value, w1, (before ++ [EvPrint line])%list))
  \/ (exists e w1,
        stdout_write line w = (Raise e, w1)
        /\ logged before line value w = (Raise e, w1, before)).
Proof.
  unfold logged. destruct (stdout_write line w) as [[[]|e] w1].
  - left. now exists w1.
  - right. now exists e, w1.
Qed.

(** Only its prints can make [search_web] raise. *)
Lemma console_search_web_raises (query : string) (num_results : Z) (w : W)
    (e : Exception) :
  outcome (search_web query num_results w) = Raise e ->
  exists line w1, fst (stdout_write line w1) = Raise e.
Proof.
  rewrite console_search_web_eq.
  assert (Hlogged : forall before line w0,
            outcome (@logged W _ (list pydict) before line [] w0) = Raise e ->
            exists line w1, fst (stdout_write line w1) = Raise e).
  { intros before line w0.
    destruct (logged_cases before line (@nil pydict) w0)
      as [[w1 [_ ->]]|[e' [w1 [Hwrite ->]]]]; unfold outcome; simpl; intros Hraise.
    - discriminate.
    - inversion Hraise. subst e'. exists line, w0. now rewrite Hwrite. }
  destruct (os_getenv "SERPER_API_KEY" w) as [key|]; [|apply Hlogged].
  destruct (String.eqb key ""); [apply Hlogged|].
  cbv zeta.
  destruct (requests_post _ w) as [[resp|e0] w1]; [|apply Hlogged].
  destruct (read_response serper_url resp) as [rs|e0]; [|apply Hlogged].
  unfold outcome; simpl; discriminate.
Qed.

(** What [search_web] returns is made of the records of the loop, and it
    calls the model on no path. *)
Lemma console_search_web_records (query : string) (num_results : Z) (w : W)
    (rs : list pydict) :
  outcome (search_web query num_results w) = Ok rs ->
  exists ms, rs = map record_of_members ms.
Proof.
  rewrite console_search_web_eq.
  assert (Hlogged : forall before line w0,
            outcome (@logged W _ (list pydict) before line [] w0) = Ok rs ->
            exists ms, rs = map record_of_members ms).
  { intros before line w0.
    destruct (logged_cases before line (@nil pydict) w0)
      as [[w1 [_ ->]]|[e' [w1 [_ ->]]]]; unfold outcome; simpl; intros Hrun.
    - inversion Hrun. now exists [].
    - discriminate. }
  destruct (os_getenv "SERPER_API_KEY" w) as [key|]; [|apply Hlogged].
  destruct (String.eqb key ""); [apply Hlogged|].
  cbv zeta.
  destruct (requests_post _ w) as [[resp|e0] w1]; [|apply Hlogged].
  destruct (read_response serper_url resp) as [rs'|e0] eqn:Hread; [|apply Hlogged].
  unfold outcome; simpl. intros Hrun. inversion Hrun. subst rs'.
  apply read_response_inv in Hread.
  destruct Hread as (data & organic & ms & _ & _ & _ & _ & Hrs). now exists ms.
Qed.

Lemma console_search_web_quiet (query : string) (num_results : Z) (w : W) :
  prompts (events (search_web query num_results w)) = []
  /\ handles (events (search_web query num_results w)) = [].
Proof.
  rewrite console_search_web_eq.
  assert (Hlogged : forall before line w0,
            prompts before = [] -> handles before = [] ->
            prompts (events (@logged W _ (list pydict) before line [] w0)) = []
            /\ handles (events (@logged W _ (list pydict) before line [] w0)) = []).
  { intros before line w0 Hp Hh.
    destruct (logged_cases before line (@nil pydict) w0)
      as [[w1 [_ ->]]|[e' [w1 [_ ->]]]]; unfold events; simpl.
    - rewrite prompts_app, handles_app, Hp, Hh. split; reflexivity.
    - split; assumption. }
  destruct (os_getenv "SERPER_API_KEY" w) as [key|]; [|now apply Hlogged].
  destruct (String.eqb key ""); [now apply Hlogged|].
  cbv zeta.
  destruct (requests_post _ w) as [[resp|e0] w1]; [|now apply Hlogged].
  destruct (read_response serper_url resp) as [rs'|e0]; [|now apply Hlogged].
  split; reflexivity.
Qed.

(** The handler around the steps. *)
Lemma console_improvement_eq (llm : ChatAnthropic) (message_text : string) (w : W) :
  megabrain_improvement llm message_text w =
    match megabrain_steps llm message_text w with
    | (Ok answer, w1, t1) => (Ok answer, w1, t1)
    | (Raise e, w1, t1) =>
        logged t1 (pipeline_error_line e) (fallback_response message_text) w1
    end.
Proof.
  unfold megabrain_improvement, try_except, logged, pipeline_error_line.
  destruct (megabrain_steps llm message_text w) as [[[answer|e] w1] t1];
    [reflexivity|].
  unfold bind, print, ret.
  destruct (stdout_write ("Error in megabrain improvement: " ++ exc_str e) w1)
    as [[[]|e'] w2]; simpl; rewrite ?app_nil_r; reflexivity.
Qed.

(** The steps, path by path. *)
Lemma console_steps_eq (llm : ChatAnthropic) (message_text : string) (w : W) :
  megabrain_steps llm message_text w =
    let question := question_check_prompt message_text in
    match chain_invoke llm question w with
    | (Raise e, w1) => (Raise e, w1, [EvInvoke llm question])
    | (Ok raw, w1) =>
        if String.eqb (str_upper (str_strip raw)) "YES" then
          match stdout_write (searching_line message_text) w1 with
          | (Raise e, w2) => (Raise e, w2, [EvInvoke llm question])
          | (Ok _, w2) =>
              let before :=
                [EvInvoke llm question; EvPrint (searching_line message_text)] in
              match search_web message_text 5 w2 with
              | (Raise e, w3, t3) => (Raise e, w3, (before ++ t3)%list)
              | (Ok found, w3, t3) =>
                  match stdout_write (found_line found) w3 with
                  | (Raise e, w4) => (Raise e, w4, (before ++ t3)%list)
                  | (Ok _, w4) =>
                      second_call llm message_text found
                        (before ++ t3 ++ [EvPrint (found_line found)])%list w4
                  end
              end
          end
        else second_call llm message_text [] [EvInvoke llm question] w1
    end.
Proof.
  unfold megabrain_steps, second_call, searching_line, found_line. cbv zeta.
  unfold bind at 1. unfold invoke at 1.
  destruct (chain_invoke llm (question_check_prompt message_text) w) as [[raw|e] w1];
    [|reflexivity].
  destruct (String.eqb (str_upper (str_strip raw)) "YES").
  - unfold bind, print, ret.
    destruct (stdout_write ("🔍 Searching the web for: " ++ message_text) w1)
      as [[[]|e] w2]; [|reflexivity].
    destruct (search_web message_text 5 w2) as [[[found|e] w3] t3];
      [|simpl; rewrite ?app_nil_r; reflexivity].
    destruct (stdout_write
                ("📊 Found " ++ str_of_nat (length found) ++ " search results") w3)
      as [[[]|e] w4]; [|simpl; rewrite ?app_nil_r; reflexivity].
    destruct found as [|r0 rs]; unfold lift, invoke; simpl.
    + destruct (chain_invoke llm (response_prompt_no_results message_text) w4)
        as [[answer|e] w5]; simpl; rewrite ?app_nil_r, <- ?app_assoc; reflexivity.
    + destruct (format_search_context (r0 :: rs)) as [context|e]; simpl;
        [|rewrite ?app_nil_r, <- ?app_assoc; reflexivity].
      destruct (chain_invoke llm (response_prompt_with_results message_text context) w4)
        as [[answer|e] w5]; simpl; rewrite ?app_nil_r, <- ?app_assoc; reflexivity.
  - unfold bind, ret, invoke. simpl.
    destruct (chain_invoke llm (response_prompt_no_results message_text) w1)
      as [[answer|e] w3]; reflexivity.
Qed.
End ConsoleRuns.

(** ** The answers of the provider *)

Lemma read_response_answered (url : string) (resp : response) (members : pydict)
    (ms : list pydict) :
  is_error_status (status_code resp) = false ->
  json_body resp = Ok (JObj members) ->
  dict_lookup "organic" members = Some (JArr (map JObj ms)) ->
  read_response url resp = Ok (map record_of_members ms).
Proof.
  intros Hstatus Hbody Horganic.
  unfold read_response. rewrite (raise_for_status_quiet _ _ Hstatus), Hbody.
  simpl. rewrite Horganic. simpl. now rewrite collect_organic_objects.
Qed.

Lemma read_response_all_or_nothing (url : string) (resp : response) (rs : list pydict) :
  read_response url resp = Ok rs ->
  rs = []
  \/ exists members ms,
       is_error_status (status_code resp) = false
       /\ json_body resp = Ok (JObj members)
       /\ dict_lookup "organic" members = Some (JArr (map JObj ms))
       /\ rs = map record_of_members ms.
Proof.
  intros Hread. apply read_response_inv in Hread.
  destruct Hread as (data & organic & ms & Hstatus & Hbody & Hget & Hiter & Hrs).
  destruct ms as [|m ms]; [left; exact Hrs|]. right.
  destruct data; try discriminate Hget.
  simpl in Hget. inversion Hget as [Horganic]. clear Hget.
  destruct organic as [| | | | |items|inner]; try discriminate Hiter.
  - simpl in Hiter. destruct s; discriminate Hiter.
  - simpl in Hiter. inversion Hiter. subst items.
    destruct (dict_lookup "organic" members) as [found|] eqn:Hlookup;
      [|discriminate Horganic].
    subst found. exists members, (m :: ms). repeat split; assumption.
  - simpl in Hiter. destruct inner; discriminate Hiter.
Qed.

Section ConsoleSearch.
Context {W : Type} `{Services W} `{Stdout W}.

Lemma console_search_web_posts (query : string) (num_results : Z) (w : W) :
  posts (events (search_web query num_results w)) =
    match os_getenv "SERPER_API_KEY" w with
    | Some key => if String.eqb key "" then [] else [serper_request key query num_results]
    | None => []
    end.
Proof.
  rewrite console_search_web_eq.
  assert (Hlogged : forall before line w0,
            posts (events (@logged W _ (list pydict) before line [] w0)) = posts before).
  { intros before line w0.
    destruct (logged_cases before line (@nil pydict) w0)
      as [[w1 [_ ->]]|[e' [w1 [_ ->]]]]; unfold events; simpl; [|reflexivity].
    rewrite posts_app. simpl. apply app_nil_r. }
  destruct (os_getenv "SERPER_API_KEY" w) as [key|]; [|apply Hlogged].
  destruct (String.eqb key ""); [apply Hlogged|].
  cbv zeta.
  destruct (requests_post _ w) as [[resp|e0] w1]; [|apply Hlogged].
  destruct (read_response serper_url resp) as [rs'|e0]; [reflexivity|apply Hlogged].
Qed.

(** C3, as amended. The [try] of [search_web] lets nothing of the request,
    the status check, the decoding and the extraction pass: an exception
    that leaves [search_web] was raised by one of its own prints, which
    stand outside the [try].  When the credential is present and the call
    fails (a transport error raised by requests.post, a 4xx or 5xx status,
    or a body that is not decodable JSON), the handler prints the line
    Error in web search; when the line is written the result is the empty
    list, and when it is not the exception of print is raised.  An answer
    with any other status, 2xx or not, and a body whose organic member is a
    list of objects is no failure: its records are returned and nothing is
    printed. *)
Theorem search_web_lets_only_its_prints_raise
    (query : string) (num_results : Z) (w : W) :
  (forall e,
     outcome (search_web query num_results w) = Raise e ->
     exists line w1, fst (stdout_write line w1) = Raise e)
  /\ forall key,
       os_getenv "SERPER_API_KEY" w = Some key ->
       key <> "" ->
       let req := serper_request key query num_results in
       (http_call_fails req w = true ->
        exists e,
          search_web query num_results w =
            match stdout_write (search_error_line e) (snd (requests_post req w)) with
            | (Ok _, w2) => (Ok [], w2, [EvPost req; EvPrint (search_error_line e)])
            | (Raise e', w2) => (Raise e', w2, [EvPost req])
            end)
       /\ (forall ms,
             answered_with req w ms ->
             search_web query num_results w =
               (Ok (map record_of_members ms), snd (requests_post req w), [EvPost req])).
Proof.
  split; [apply console_search_web_raises|].
  intros key Hkey Hne req. subst req.
  rewrite console_search_web_eq, Hkey.
  apply String.eqb_neq in Hne. rewrite Hne. cbv zeta. split.
  - intros Hfails. unfold http_call_fails in Hfails.
    destruct (requests_post (serper_request key query num_results) w) as [[resp|e] w1];
      simpl in *; [|now exists e].
    assert (Hraise : exists e, read_response serper_url resp = Raise e).
    { apply orb_true_iff in Hfails. destruct Hfails as [Hstatus|Hbody].
      - destruct (read_response_error_status serper_url resp Hstatus) as [e [He _]].
        now exists e.
      - destruct (json_body resp) as [data|e] eqn:Hjson; [discriminate|].
        exact (read_response_undecodable serper_url resp e Hjson). }
    destruct Hraise as [e He]. rewrite He. now exists e.
  - intros ms (resp & w1 & members & Hpost & Hstatus & Hbody & Horganic).
    rewrite Hpost. simpl.
    now rewrite (read_response_answered _ _ _ _ Hstatus Hbody Horganic).
Qed.

(** C8, as amended. [search_web] passes num_results to the provider as the
    num field of its one request and does not cut the answer.  When the
    provider answers with a list of objects, the result is the complete
    list of their records, one per entry and in the order of the entries,
    however many there are; a result is never a part of the answer: it is
    that complete list or it is empty.  So the length is at most
    num_results whenever the provider answered with at most num_results
    entries. *)
Theorem search_web_returns_every_entry_or_none
    (query : string) (num_results : Z) (w : W) (key : string) :
  os_getenv "SERPER_API_KEY" w = Some key ->
  key <> "" ->
  let req := serper_request key query num_results in
  let run := search_web query num_results w in
  dict_lookup "num" (req_payload req) = Some (JInt num_results)
  /\ posts (events run) = [req]
  /\ (forall ms,
        answered_with req w ms ->
        outcome run = Ok (map record_of_members ms)
        /\ length (map record_of_members ms) = length ms)
  /\ (forall rs,
        outcome run = Ok rs ->
        rs = []
        \/ exists ms, answered_with req w ms /\ rs = map record_of_members ms)
  /\ (forall rs,
        outcome run = Ok rs ->
        (Z.of_nat (length (organic_entries req w)) <= num_results)%Z ->
        (Z.of_nat (length rs) <= num_results)%Z).
Proof.
  intros Hkey Hne req run. subst run.
  split; [reflexivity|]. split.
  { rewrite console_search_web_posts, Hkey.
    apply String.eqb_neq in Hne. now rewrite Hne. }
  rewrite console_search_web_eq, Hkey.
  pose proof Hne as Hne'. apply String.eqb_neq in Hne'. rewrite Hne'. cbv zeta.
  fold req. split; [|split].
  - intros ms (resp & w1 & members & Hpost & Hstatus & Hbody & Horganic).
    rewrite Hpost, (read_response_answered _ _ _ _ Hstatus Hbody Horganic).
    split; [reflexivity | apply length_map].
  - intros rs.
    destruct (requests_post req w) as [[resp|e] w1] eqn:Hpost.
    + destruct (read_response serper_url resp) as [rs'|e] eqn:Hread.
      * unfold outcome; simpl. intros Hrun. inversion Hrun. subst rs'.
        destruct (read_response_all_or_nothing _ _ _ Hread)
          as [Hempty|(members & ms & Hstatus & Hbody & Horganic & Hrs)];
          [now left|].
        right. exists ms. split; [|exact Hrs].
        exists resp, w1, members. repeat split; assumption.
      * destruct (logged_cases [EvPost req] (search_error_line e) (@nil pydict) w1)
          as [[w2 [_ ->]]|[e' [w2 [_ ->]]]]; unfold outcome; simpl; intros Hrun;
          [inversion Hrun; now left | discriminate].
    + destruct (logged_cases [EvPost req] (search_error_line e) (@nil pydict) w1)
        as [[w2 [_ ->]]|[e' [w2 [_ ->]]]]; unfold outcome; simpl; intros Hrun;
        [inversion Hrun; now left | discriminate].
  - intros rs. unfold organic_entries.
    destruct (requests_post req w) as [[resp|e] w1] eqn:Hpost; simpl.
    + destruct (read_response serper_url resp) as [rs'|e] eqn:Hread.
      * unfold outcome; simpl. intros Hrun. inversion Hrun. subst rs'.
        apply read_response_inv in Hread.
        destruct Hread as (data & organic & ms & _ & Hbody & Hget & Hiter & Hrs).
        rewrite Hbody. simpl. rewrite Hget. simpl. rewrite Hiter.
        subst rs. now rewrite !length_map.
      * destruct (logged_cases [EvPost req] (search_error_line e) (@nil pydict) w1)
          as [[w2 [_ ->]]|[e' [w2 [_ ->]]]]; unfold outcome; simpl; intros Hrun;
          [inversion Hrun; simpl; lia | discriminate].
    + destruct (logged_cases [EvPost req] (search_error_line e) (@nil pydict) w1)
        as [[w2 [_ ->]]|[e' [w2 [_ ->]]]]; unfold outcome; simpl; intros Hrun;
        [inversion Hrun; simpl; lia | discriminate].
Qed.
End ConsoleSearch.

(** ** A needle in a text made of parts *)

Lemma prefix_split (needle text : string) :
  String.prefix needle text = true -> exists rest, text = needle ++ rest.
Proof.
  revert text. induction needle as [|c needle IH]; intros text Hprefix.
  - now exists text.
  - destruct text as [|d text]; simpl in Hprefix; [discriminate|].
    destruct (ascii_dec c d) as [->|_]; [|discriminate].
    destruct (IH text Hprefix) as [rest ->]. now exists rest.
Qed.

Lemma contains_split (needle text : string) :
  contains needle text = true -> exists before after, text = before ++ needle ++ after.
Proof.
  induction text as [|c text IH]; rewrite contains_eq; intros Hin;
    apply orb_true_iff in Hin; destruct Hin as [Hprefix|Hrest]; try discriminate.
  - destruct (prefix_split _ _ Hprefix) as [rest Hrest]. now exists "", rest.
  - destruct (prefix_split _ _ Hprefix) as [rest Hrest]. now exists "", rest.
  - destruct (IH Hrest) as [before [after ->]]. now exists (String c before), after.
Qed.

(** A needle of a part is a needle of the whole. *)
Lemma contains_within (needle part before after : string) :
  contains needle part = true ->
  contains needle (before ++ part ++ after) = true.
Proof.
  intros Hin. destruct (contains_split _ _ Hin) as [pre [post ->]].
  rewrite !append_assoc, <- (append_assoc before pre).
  apply contains_append.
Qed.

(** A needle at the head of two parts is at the head of the first, or runs
    over the whole of the first into the second. *)
Lemma prefix_append_cases (needle first second : string) :
  String.prefix needle (first ++ second) = true ->
  String.prefix needle first = true
  \/ exists tail,
       needle = first ++ tail /\ tail <> "" /\ String.prefix tail second = true.
Proof.
  revert needle. induction first as [|c first IH]; intros needle Hprefix.
  - destruct needle as [|d needle]; [now left|]. right.
    exists (String d needle). repeat split; [discriminate | exact Hprefix].
  - destruct needle as [|d needle]; [now left|]. simpl in Hprefix |- *.
    destruct (ascii_dec d c) as [->|_]; [|discriminate].
    destruct (IH needle Hprefix) as [Hfirst|[tail (-> & Htail & Hsecond)]];
      [now left|].
    right. now exists tail.
Qed.

(** A needle in two parts is in the first, or in the second, or begins at
    the end of the first and ends at the head of the second. *)
Lemma contains_append_cases (needle first second : string) :
  contains needle (first ++ second) = true ->
  contains needle first = true
  \/ contains needle second = true
  \/ exists before head tail,
       first = before ++ head /\ needle = head ++ tail
       /\ head <> "" /\ tail <> "" /\ String.prefix tail second = true.
Proof.
  induction first as [|c first IH]; intros Hin; [now right; left|].
  change (String c first ++ second) with (String c (first ++ second)) in Hin.
  rewrite contains_eq in Hin. apply orb_true_iff in Hin.
  destruct Hin as [Hprefix|Hrest].
  - change (String c (first ++ second)) with (String c first ++ second) in Hprefix.
    destruct (prefix_append_cases _ _ _ Hprefix)
      as [Hfirst|[tail (Hneedle & Htail & Hsecond)]].
    + left. rewrite contains_eq, Hfirst. reflexivity.
    + right; right. exists "", (String c first), tail.
      repeat split; [exact Hneedle | discriminate | exact Htail | exact Hsecond].
  - destruct (IH Hrest)
      as [Hfirst|[Hsecond|(before & head & tail & -> & Hneedle & Hhead & Htail & Hpre)]].
    + left. rewrite contains_eq, Hfirst. apply orb_true_r.
    + now right; left.
    + right; right. exists (String c before), head, tail. repeat split; assumption.
Qed.

(** The last character of a text is the last character of its last part. *)
Lemma last_of_append (before part : string) :
  part <> "" ->
  String.get (String.length (before ++ part) - 1) (before ++ part)
  = String.get (String.length part - 1) part.
Proof.
  intros Hpart. induction before as [|c before IH]; [reflexivity|].
  change (String c before ++ part) with (String c (before ++ part)).
  destruct (before ++ part) as [|d rest] eqn:Hrest.
  - destruct before; [now destruct Hpart | discriminate].
  - rewrite <- IH. simpl. now rewrite !Nat.sub_0_r.
Qed.

(** The parts of a needle, one by one. *)
Ltac each_part :=
  repeat match goal with
         | H : _ = (?head ++ _)%string |- _ =>
             destruct head; simpl in H;
             [ subst;
               first [ exfalso; congruence | vm_compute in *; discriminate ]
             | first [ discriminate H | inversion H; clear H; subst ] ]
         end.

(** No line head of the block of results begins at the end of the text
    before the message in the no-results template (it ends with a space
    after a colon), and none ends at the head of the text after it (it
    begins with a line feed). *)
Lemma no_line_head_across_the_message (needle : string) :
  In needle ["Title: "; "Snippet: "; "Link: "] ->
  (forall before head tail,
     no_results_before_message = before ++ head ->
     needle = head ++ tail -> head <> "" -> tail <> "" -> False)
  /\ (forall head tail,
        needle = head ++ tail -> head <> "" -> tail <> "" ->
        String.prefix tail no_results_after_message = true -> False).
Proof.
  intros Hneedle. split.
  - intros before head tail Hbefore Hsplit Hhead Htail.
    pose proof (last_of_append before head Hhead) as Hlast.
    rewrite <- Hbefore in Hlast. clear Hbefore.
    assert (Hend : String.get (String.length no_results_before_message - 1)
                     no_results_before_message = Some " "%char)
      by (vm_compute; reflexivity).
    rewrite Hend in Hlast. clear Hend.
    destruct Hneedle as [<-|[<-|[<-|[]]]]; each_part.
  - intros head tail Hsplit Hhead Htail Hprefix.
    destruct Hneedle as [<-|[<-|[<-|[]]]]; each_part.
Qed.

(** The no-results prompt holds a line head of the block of results only
    when the message does. *)
Lemma no_results_prompt_without_block (message_text : string) :
  has_results_block message_text = false ->
  has_results_block (response_prompt_no_results message_text) = false.
Proof.
  unfold has_results_block, response_prompt_no_results. intros Hmessage.
  apply orb_false_iff in Hmessage. destruct Hmessage as [Hmessage Hlink].
  apply orb_false_iff in Hmessage. destruct Hmessage as [Htitle Hsnippet].
  assert (Hnone : forall needle,
            In needle ["Title: "; "Snippet: "; "Link: "] ->
            contains needle message_text = false ->
            contains needle
              (no_results_before_message ++ message_text ++ no_results_after_message)
            = false).
  { intros needle Hneedle Hout.
    destruct (no_line_head_across_the_message needle Hneedle) as [Hleft Hright].
    destruct (contains needle
                (no_results_before_message ++ message_text ++ no_results_after_message))
      eqn:Hin; [exfalso|reflexivity].
    destruct (contains_append_cases _ _ _ Hin)
      as [Hbefore|[Hrest|(before & head & tail & Hcut & Hsplit & Hhead & Htail & _)]].
    - destruct Hneedle as [<-|[<-|[<-|[]]]]; vm_compute in Hbefore; discriminate.
    - destruct (contains_append_cases _ _ _ Hrest)
        as [Hmid|[Hafter|(before & head & tail & _ & Hsplit & Hhead & Htail & Hpre)]].
      + congruence.
      + destruct Hneedle as [<-|[<-|[<-|[]]]]; vm_compute in Hafter; discriminate.
      + exact (Hright head tail Hsplit Hhead Htail Hpre).
    - exact (Hleft before head tail Hcut Hsplit Hhead Htail). }
  rewrite (Hnone "Title: "), (Hnone "Snippet: "), (Hnone "Link: ");
    simpl; auto.
Qed.

(** ** The pipeline on any console *)

Section ConsolePipeline.
Context {W : Type} `{Services W} `{PyStr} `{Stdout W}.

(** The search branch, path by path. *)
Lemma console_fetch_eq (message_text raw : string) (w : W) :
  fetch_results message_text raw w =
    if String.eqb (str_upper (str_strip raw)) "YES" then
      match stdout_write (searching_line message_text) w with
      | (Raise e, w2) => (Raise e, w2, [])
      | (Ok _, w2) =>
          match search_web message_text 5 w2 with
          | (Raise e, w3, t3) =>
              (Raise e, w3, (EvPrint (searching_line message_text) :: t3)%list)
          | (Ok found, w3, t3) =>
              match stdout_write (found_line found) w3 with
              | (Raise e, w4) =>
                  (Raise e, w4, (EvPrint (searching_line message_text) :: t3)%list)
              | (Ok _, w4) =>
                  (Ok found, w4,
                   (EvPrint (searching_line message_text) :: t3
                      ++ [EvPrint (found_line found)])%list)
              end
          end
      end
    else (Ok [], w, []).
Proof.
  unfold fetch_results.
  destruct (String.eqb (str_upper (str_strip raw)) "YES"); [|reflexivity].
  unfold bind, print, ret.
  destruct (stdout_write (searching_line message_text) w) as [[[]|e] w2]; [|reflexivity].
  destruct (search_web message_text 5 w2) as [[[found|e] w3] t3];
    [|simpl; rewrite ?app_nil_r; reflexivity].
  destruct (stdout_write (found_line found) w3) as [[[]|e] w4];
    simpl; rewrite ?app_nil_r; reflexivity.
Qed.

(** The steps: the classifier, the search branch, the second call. *)
Lemma console_steps_blocks (llm : ChatAnthropic) (message_text : string) (w : W) :
  megabrain_steps llm message_text w =
    let question := question_check_prompt message_text in
    match chain_invoke llm question w with
    | (Raise e, w1) => (Raise e, w1, [EvInvoke llm question])
    | (Ok raw, w1) =>
        match fetch_results message_text raw w1 with
        | (Raise e, w2, t2) => (Raise e, w2, (EvInvoke llm question :: t2)%list)
        | (Ok found, w2, t2) =>
            second_call llm message_text found (EvInvoke llm question :: t2)%list w2
        end
    end.
Proof.
  rewrite console_steps_eq. cbv zeta.
  destruct (chain_invoke llm (question_check_prompt message_text) w) as [[raw|e] w1];
    [|reflexivity].
  rewrite console_fetch_eq.
  destruct (String.eqb (str_upper (str_strip raw)) "YES"); [|reflexivity].
  destruct (stdout_write (searching_line message_text) w1) as [[[]|e] w2]; [|reflexivity].
  destruct (search_web message_text 5 w2) as [[[found|e] w3] t3]; [|reflexivity].
  destruct (stdout_write (found_line found) w3) as [[[]|e] w4]; reflexivity.
Qed.

(** Only a print can cut the search branch short. *)
Lemma console_fetch_raises (message_text raw : string) (w : W) (e : Exception) :
  outcome (fetch_results message_text raw w) = Raise e ->
  exists line w1, fst (stdout_write line w1) = Raise e.
Proof.
  rewrite console_fetch_eq.
  destruct (String.eqb (str_upper (str_strip raw)) "YES");
    [|unfold outcome; simpl; discriminate].
  destruct (stdout_write (searching_line message_text) w) as [[[]|e0] w2] eqn:Hfirst.
  - pose proof (console_search_web_raises message_text 5 w2) as Hsearch.
    destruct (search_web message_text 5 w2) as [[[found|e0] w3] t3].
    + destruct (stdout_write (found_line found) w3) as [[[]|e0] w4] eqn:Hsecond;
        unfold outcome; simpl; intros Hraise; [discriminate|].
      inversion Hraise. subst e0. exists (found_line found), w3. now rewrite Hsecond.
    + unfold outcome; simpl; intros Hraise. apply Hsearch. exact Hraise.
  - unfold outcome; simpl; intros Hraise. inversion Hraise. subst e0.
    exists (searching_line message_text), w. now rewrite Hfirst.
Qed.

(** What the search branch hands on is made of the records of the loop;
    the branch calls the model on no path. *)
Lemma console_fetch_records (message_text raw : string) (w : W) (found : list pydict) :
  outcome (fetch_results message_text raw w) = Ok found ->
  exists ms, found = map record_of_members ms.
Proof.
  rewrite console_fetch_eq.
  destruct (String.eqb (str_upper (str_strip raw)) "YES");
    [|unfold outcome; simpl; intros Hrun; inversion Hrun; now exists []].
  destruct (stdout_write (searching_line message_text) w) as [[[]|e0] w2];
    [|unfold outcome; simpl; discriminate].
  pose proof (console_search_web_records message_text 5 w2) as Hsearch.
  destruct (search_web message_text 5 w2) as [[[found'|e0] w3] t3];
    [|unfold outcome; simpl; discriminate].
  destruct (stdout_write (found_line found') w3) as [[[]|e0] w4];
    unfold outcome; simpl; intros Hrun; [|discriminate].
  inversion Hrun. subst found'. now apply Hsearch.
Qed.

Lemma console_fetch_quiet (message_text raw : string) (w : W) :
  prompts (events (fetch_results message_text raw w)) = []
  /\ handles (events (fetch_results message_text raw w)) = [].
Proof.
  rewrite console_fetch_eq.
  destruct (String.eqb (str_upper (str_strip raw)) "YES"); [|split; reflexivity].
  destruct (stdout_write (searching_line message_text) w) as [[[]|e0] w2];
    [|split; reflexivity].
  destruct (console_search_web_quiet message_text 5 w2) as [Hp Hh].
  destruct (search_web message_text 5 w2) as [[[found|e0] w3] t3];
    unfold events in *; simpl in *.
  - destruct (stdout_write (found_line found) w3) as [[[]|e0] w4]; simpl;
      rewrite ?prompts_app, ?handles_app, Hp, Hh; split; reflexivity.
  - split; assumption.
Qed.

Lemma synthesizer_prompt_of_records (message_text : string) (ms : list pydict) :
  exists prompt,
    synthesizer_prompt message_text (map record_of_members ms) = Ok prompt.
Proof.
  destruct ms as [|m ms]; [eexists; reflexivity|].
  destruct (records_rendered (m :: ms)) as [blocks [Hrender _]].
  unfold synthesizer_prompt, format_search_context.
  simpl map in *. rewrite Hrender. eexists. reflexivity.
Qed.

(** What the second call can raise was raised by the model. *)
Lemma second_call_raises (llm : ChatAnthropic) (message_text : string)
    (ms : list pydict) (before : list event) (w : W) (e : Exception) :
  outcome (second_call llm message_text (map record_of_members ms) before w) = Raise e ->
  exists prompt w1, fst (chain_invoke llm prompt w1) = Raise e.
Proof.
  unfold second_call.
  destruct (synthesizer_prompt_of_records message_text ms) as [prompt ->].
  destruct (chain_invoke llm prompt w) as [[answer|e0] w1] eqn:Hcall;
    unfold outcome; simpl; intros Hraise; [discriminate|].
  inversion Hraise. subst e0. exists prompt, w. now rewrite Hcall.
Qed.

(** What the steps raise was raised by a call to the model or by a print:
    the search service raises nothing past [search_web], and the records it
    returns are rendered without a failure. *)
Lemma console_steps_raises (llm : ChatAnthropic) (message_text : string) (w : W)
    (e : Exception) :
  outcome (megabrain_steps llm message_text w) = Raise e ->
  (exists prompt w1, fst (chain_invoke llm prompt w1) = Raise e)
  \/ (exists line w1, fst (stdout_write line w1) = Raise e).
Proof.
  rewrite console_steps_blocks. cbv zeta.
  destruct (chain_invoke llm (question_check_prompt message_text) w)
    as [[raw|e0] w1] eqn:Hclassifier.
  - pose proof (console_fetch_raises message_text raw w1) as Hprint.
    pose proof (console_fetch_records message_text raw w1) as Hrecords.
    destruct (fetch_results message_text raw w1) as [[[found|e0] w2] t2].
    + destruct (Hrecords found eq_refl) as [ms ->].
      intros Hraise. left. exact (second_call_raises _ _ _ _ _ _ Hraise).
    + unfold outcome in *; simpl in *. intros Hraise. right. apply Hprint.
      inversion Hraise. reflexivity.
  - unfold outcome; simpl. intros Hraise. inversion Hraise. subst e0.
    left. exists (question_check_prompt message_text), w. now rewrite Hclassifier.
Qed.

Lemma console_search_web_answered (query : string) (num_results : Z) (w : W)
    (key : string) (ms : list pydict) :
  os_getenv "SERPER_API_KEY" w = Some key ->
  key <> "" ->
  answered_with (serper_request key query num_results) w ms ->
  search_web query num_results w =
    (Ok (map record_of_members ms),
     snd (requests_post (serper_request key query num_results) w),
     [EvPost (serper_request key query num_results)]).
Proof.
  intros Hkey Hne (resp & w1 & members & Hpost & Hstatus & Hbody & Horganic).
  rewrite console_search_web_eq, Hkey.
  apply String.eqb_neq in Hne. rewrite Hne. cbv zeta.
  rewrite Hpost. simpl.
  now rewrite (read_response_answered _ _ _ _ Hstatus Hbody Horganic).
Qed.

(** What a handler that logs leaves of the calls made before it. *)
Lemma logged_events {A : Type} (before : list event) (line : string) (value : A) (w : W) :
  posts (events (logged before line value w)) = posts before
  /\ prompts (events (logged before line value w)) = prompts before
  /\ handles (events (logged before line value w)) = handles before.
Proof.
  destruct (logged_cases before line value w) as [[w1 [_ ->]]|[e [w1 [_ ->]]]];
    unfold events; simpl.
  - rewrite posts_app, prompts_app, handles_app. simpl. rewrite !app_nil_r.
    repeat split; reflexivity.
  - repeat split; reflexivity.
Qed.

(** The second call and the handler after it. *)
Lemma second_call_handled (llm : ChatAnthropic) (message_text prompt : string)
    (found : list pydict) (before : list event) (w : W) :
  synthesizer_prompt message_text found = Ok prompt ->
  let run :=
    match second_call llm message_text found before w with
    | (Ok answer, w1, t1) => (Ok answer, w1, t1)
    | (Raise e, w1, t1) =>
        logged t1 (pipeline_error_line e) (fallback_response message_text) w1
    end in
  posts (events run) = posts before
  /\ prompts (events run) = (prompts before ++ [prompt])%list
  /\ run = match chain_invoke llm prompt w with
           | (Ok answer, w1) =>
               (Ok (str_strip answer), w1, (before ++ [EvInvoke llm prompt])%list)
           | (Raise e, w1) =>
               logged (before ++ [EvInvoke llm prompt])%list (pipeline_error_line e)
                 (fallback_response message_text) w1
           end.
Proof.
  intros Hprompt. unfold second_call. rewrite Hprompt. cbv zeta.
  destruct (chain_invoke llm prompt w) as [[answer|e] w1].
  - unfold events; simpl. rewrite posts_app, prompts_app. simpl.
    rewrite app_nil_r. repeat split; reflexivity.
  - destruct (logged_events (before ++ [EvInvoke llm prompt])%list
                (pipeline_error_line e) (fallback_response message_text) w1)
      as (Hposts & Hprompts & _).
    rewrite Hposts, Hprompts, posts_app, prompts_app. simpl.
    rewrite app_nil_r. repeat split; reflexivity.
Qed.

(** C1, as amended. [megabrain_improvement] returns a string or raises
    what the print of its handler raised.  When its steps end, their text
    is returned.  When a step raises, the exception was raised by a call to
    the model or by a print inside the [try] (nothing the search service
    does gets past [search_web]); it is caught once, the handler prints the
    line Error in megabrain improvement, and when the line is written the
    fallback is returned.  That print stands outside any [try]: when the
    line is not written, the run raises the exception of the print, and
    this is the only way the run raises. *)
Theorem pipeline_raises_only_from_its_handler
    (llm : ChatAnthropic) (message_text : string) (w : W) :
  let steps := megabrain_steps llm message_text w in
  let run := megabrain_improvement llm message_text w in
  (forall text, outcome steps = Ok text -> run = steps)
  /\ (forall e,
        outcome steps = Raise e ->
        ((exists prompt w1, fst (chain_invoke llm prompt w1) = Raise e)
         \/ (exists line w1, fst (stdout_write line w1) = Raise e))
        /\ run =
             match stdout_write (pipeline_error_line e) (world_after steps) with
             | (Ok _, w2) =>
                 (Ok (fallback_response message_text), w2,
                  (events steps ++ [EvPrint (pipeline_error_line e)])%list)
             | (Raise e', w2) => (Raise e', w2, events steps)
             end)
  /\ (forall e',
        outcome run = Raise e' ->
        exists e,
          outcome steps = Raise e
          /\ fst (stdout_write (pipeline_error_line e) (world_after steps)) = Raise e').
Proof.
  intros steps run. subst run.
  pose proof (console_steps_raises llm message_text w) as Horigin.
  rewrite console_improvement_eq. fold steps in Horigin |- *.
  destruct steps as [[[text|e] w1] t1]; unfold outcome, world_after, events in *;
    simpl in *.
  - split; [reflexivity|]. split; intros; discriminate.
  - split; [intros; discriminate|]. split.
    + intros e0 He0. inversion He0. subst e0.
      split; [apply Horigin; reflexivity|]. reflexivity.
    + intros e'. unfold logged.
      destruct (stdout_write (pipeline_error_line e) w1) as [[[]|e0] w2] eqn:Hwrite;
        simpl; intros Hraise; [discriminate|].
      exists e. split; [reflexivity|]. rewrite Hwrite. inversion Hraise. reflexivity.
Qed.

(** C2. The decision is the raw output of the classifier, stripped and
    upper-cased, compared with YES.  If it is anything else, the run sends
    nothing to the search service and goes on to the second call with the
    no-results prompt.  If it is YES, the pipeline prints the Searching
    line: when the line is written, [search_web] is run next on the message
    with num_results 5; when the print raises, the run goes to the handler
    with no search and no second call to the model. *)
Theorem classifier_output_decides_the_search
    (llm : ChatAnthropic) (message_text : string) (w : W) (raw : string) (w1 : W) :
  chain_invoke llm (question_check_prompt message_text) w = (Ok raw, w1) ->
  let run := megabrain_improvement llm message_text w in
  (str_upper (str_strip raw) <> "YES" ->
     posts (events run) = []
     /\ prompts (events run) =
          [question_check_prompt message_text; response_prompt_no_results message_text])
  /\ (str_upper (str_strip raw) = "YES" ->
      (forall w2,
         stdout_write (searching_line message_text) w1 = (Ok tt, w2) ->
         exists rest,
           events run =
             ([EvInvoke llm (question_check_prompt message_text);
               EvPrint (searching_line message_text)]
                ++ events (search_web message_text 5 w2) ++ rest)%list)
      /\ (forall e w2,
            stdout_write (searching_line message_text) w1 = (Raise e, w2) ->
            posts (events run) = []
            /\ prompts (events run) = [question_check_prompt message_text]
            /\ run =
                 logged [EvInvoke llm (question_check_prompt message_text)]
                   (pipeline_error_line e) (fallback_response message_text) w2)).
Proof.
  intros Hclassifier run. subst run.
  rewrite console_improvement_eq, console_steps_eq. cbv zeta. rewrite Hclassifier.
  split.
  - intros Hno. apply String.eqb_neq in Hno. rewrite Hno.
    destruct (second_call_handled llm message_text
                (response_prompt_no_results message_text) []
                [EvInvoke llm (question_check_prompt message_text)] w1 eq_refl)
      as (Hposts & Hprompts & _).
    rewrite Hposts, Hprompts. split; reflexivity.
  - intros Hyes. rewrite Hyes. simpl String.eqb. split.
    + intros w2 Hwrite. rewrite Hwrite.
      destruct (search_web message_text 5 w2) as [[[found|e] w3] t3].
      * destruct (stdout_write (found_line found) w3) as [[[]|e] w4].
        -- unfold second_call.
           destruct (synthesizer_prompt message_text found) as [prompt|e].
           ++ destruct (chain_invoke llm prompt w4) as [[answer|e] w5].
              ** eexists. unfold events. simpl. rewrite <- !app_assoc. reflexivity.
              ** destruct (logged_cases
                             (([EvInvoke llm (question_check_prompt message_text);
                                EvPrint (searching_line message_text)]
                                 ++ t3 ++ [EvPrint (found_line found)])
                                ++ [EvInvoke llm prompt])%list
                             (pipeline_error_line e) (fallback_response message_text) w5)
                   as [[w6 [_ ->]]|[e' [w6 [_ ->]]]];
                   eexists; unfold events; simpl; rewrite <- !app_assoc; reflexivity.
           ++ destruct (logged_cases
                          ([EvInvoke llm (question_check_prompt message_text);
                            EvPrint (searching_line message_text)]
                             ++ t3 ++ [EvPrint (found_line found)])%list
                          (pipeline_error_line e) (fallback_response message_text) w4)
                as [[w6 [_ ->]]|[e' [w6 [_ ->]]]];
                eexists; unfold events; simpl; rewrite <- ?app_assoc; reflexivity.
        -- destruct (logged_cases
                       ([EvInvoke llm (question_check_prompt message_text);
                         EvPrint (searching_line message_text)] ++ t3)%list
                       (pipeline_error_line e) (fallback_response message_text) w4)
             as [[w6 [_ ->]]|[e' [w6 [_ ->]]]].
           ++ eexists. unfold events. simpl. rewrite <- ?app_assoc. reflexivity.
           ++ exists []. unfold events. simpl. now rewrite app_nil_r.
      * destruct (logged_cases
                    ([EvInvoke llm (question_check_prompt message_text);
                      EvPrint (searching_line message_text)] ++ t3)%list
                    (pipeline_error_line e) (fallback_response message_text) w3)
          as [[w6 [_ ->]]|[e' [w6 [_ ->]]]].
        -- eexists. unfold events. simpl. rewrite <- ?app_assoc. reflexivity.
        -- exists []. unfold events. simpl. now rewrite app_nil_r.
    + intros e w2 Hwrite. rewrite Hwrite.
      destruct (logged_events [EvInvoke llm (question_check_prompt message_text)]
                  (pipeline_error_line e) (fallback_response message_text) w2)
        as (Hposts & Hprompts & _).
      rewrite Hposts, Hprompts. repeat split; reflexivity.
Qed.
End ConsolePipeline.

(** ** What the synthesizer is given *)

Section ConsoleSynthesis.
Context {W : Type} `{Services W} `{PyStr} `{Stdout W}.

(** A field that is a str is printed as it is. *)
Lemma rendered_as_text (r : pydict) (block : string) :
  rendered_as r block ->
  forall title snippet link,
    dict_lookup "title" r = Some (JStr title) ->
    dict_lookup "snippet" r = Some (JStr snippet) ->
    dict_lookup "link" r = Some (JStr link) ->
    block = "Title: " ++ title ++ nl ++ "Snippet: " ++ snippet ++ nl ++ "Link: " ++ link.
Proof.
  intros (jt & js & jl & Ht & Hs & Hl & ->) title snippet link Htitle Hsnippet Hlink.
  rewrite Htitle in Ht. rewrite Hsnippet in Hs. rewrite Hlink in Hl.
  inversion Ht. inversion Hs. inversion Hl. reflexivity.
Qed.

(** The text of each field of a block is in the block. *)
Lemma block_holds_its_fields (title snippet link : string) :
  let block :=
    "Title: " ++ title ++ nl ++ "Snippet: " ++ snippet ++ nl ++ "Link: " ++ link in
  contains title block = true
  /\ contains snippet block = true
  /\ contains link block = true.
Proof.
  cbv zeta. repeat split.
  - apply contains_append.
  - replace ("Title: " ++ title ++ nl ++ "Snippet: " ++ snippet ++ nl ++ "Link: " ++ link)
      with (("Title: " ++ title ++ nl ++ "Snippet: ")
              ++ snippet ++ (nl ++ "Link: " ++ link))
      by (rewrite !append_assoc; reflexivity).
    apply contains_append.
  - replace ("Title: " ++ title ++ nl ++ "Snippet: " ++ snippet ++ nl ++ "Link: " ++ link)
      with (("Title: " ++ title ++ nl ++ "Snippet: " ++ snippet ++ nl ++ "Link: ")
              ++ link ++ "")
      by (rewrite append_empty_r, !append_assoc; reflexivity).
    apply contains_append.
Qed.

Lemma Forall2_in_right {A B : Type} (P Q : A -> B -> Prop) (xs : list A) (ys : list B) :
  Forall2 P xs ys ->
  (forall x y, In y ys -> P x y -> Q x y) ->
  Forall2 Q xs ys.
Proof.
  induction 1 as [|x y xs ys Hxy Hrest IH]; intros Himp; constructor.
  - apply Himp; [now left | exact Hxy].
  - apply IH. intros x' y' Hin. apply Himp. now right.
Qed.

(** Each block is a part of the with-results prompt. *)
Lemma prompt_holds_block (message_text block : string) (blocks : list string) :
  In block blocks ->
  exists before after,
    response_prompt_with_results message_text (join (nl ++ nl) blocks)
    = before ++ block ++ after.
Proof.
  intros Hin. destruct (join_in (nl ++ nl) block blocks Hin) as [before [after ->]].
  exists (with_results_before_message ++ message_text ++ with_results_before_results
            ++ before),
    (after ++ with_results_after_results).
  unfold response_prompt_with_results. rewrite !append_assoc. reflexivity.
Qed.

(** C4. In every run in which the classifier says YES, the Searching line
    is written and [search_web] returns at least one result, the results
    are rendered one block each, in their order: Title, Snippet and Link on
    three lines, a field that is a str printed as it is, so that the text
    of every title, snippet and link is in the prompt; the blocks are
    joined by an empty line and fill the with-results template, together
    with the message.  That prompt is the one of the second call to the
    model, which is made when the Found line is written.  The results are
    the records of the entries the provider answered with, in the order of
    the provider. *)
Theorem results_reach_the_synthesizer_prompt
    (llm : ChatAnthropic) (message_text : string) (w : W) (raw : string) (w1 w2 : W)
    (found : list pydict) (w3 : W) (t3 : list event) :
  chain_invoke llm (question_check_prompt message_text) w = (Ok raw, w1) ->
  str_upper (str_strip raw) = "YES" ->
  stdout_write (searching_line message_text) w1 = (Ok tt, w2) ->
  search_web message_text 5 w2 = (Ok found, w3, t3) ->
  found <> [] ->
  exists blocks,
    let prompt := response_prompt_with_results message_text (join (nl ++ nl) blocks) in
    Forall2 rendered_as found blocks
    /\ Forall2
         (fun r block =>
            forall title snippet link,
              dict_lookup "title" r = Some (JStr title) ->
              dict_lookup "snippet" r = Some (JStr snippet) ->
              dict_lookup "link" r = Some (JStr link) ->
              block = "Title: " ++ title ++ nl ++ "Snippet: " ++ snippet ++ nl
                        ++ "Link: " ++ link
              /\ contains title prompt = true
              /\ contains snippet prompt = true
              /\ contains link prompt = true)
         found blocks
    /\ Forall (fun block => contains block prompt = true) blocks
    /\ prompts (events (megabrain_improvement llm message_text w)) =
         match stdout_write (found_line found) w3 with
         | (Ok _, _) => [question_check_prompt message_text; prompt]
         | (Raise _, _) => [question_check_prompt message_text]
         end
    /\ (forall key ms,
          os_getenv "SERPER_API_KEY" w2 = Some key ->
          key <> "" ->
          answered_with (serper_request key message_text 5) w2 ms ->
          found = map record_of_members ms).
Proof.
  intros Hclassifier Hyes Hwrite Hsearch Hnonempty.
  assert (Hfound : outcome (search_web message_text 5 w2) = Ok found)
    by now rewrite Hsearch.
  destruct (console_search_web_records _ _ _ _ Hfound) as [ms Hms].
  destruct (records_rendered ms) as [blocks [Hrender Hall]].
  rewrite <- Hms in Hrender, Hall.
  exists blocks. cbv zeta. split; [exact Hall|]. split; [|split; [|split]].
  - apply (Forall2_in_right _ _ _ _ Hall).
    intros r block Hin Hblock title snippet link Htitle Hsnippet Hlink.
    pose proof (rendered_as_text r block Hblock title snippet link Htitle Hsnippet Hlink)
      as Htext.
    split; [exact Htext|].
    destruct (prompt_holds_block message_text block blocks Hin) as [before [after ->]].
    destruct (block_holds_its_fields title snippet link) as (Ht & Hs & Hl).
    rewrite <- Htext in Ht, Hs, Hl.
    repeat split; apply contains_within; assumption.
  - apply Forall_forall. intros block Hin.
    destruct (prompt_holds_block message_text block blocks Hin) as [before [after ->]].
    apply contains_append.
  - pose proof (console_search_web_quiet message_text 5 w2) as [Hquiet _].
    rewrite Hsearch in Hquiet. unfold events in Hquiet. simpl in Hquiet.
    rewrite console_improvement_eq, console_steps_eq. cbv zeta.
    rewrite Hclassifier, Hyes. simpl String.eqb. rewrite Hwrite, Hsearch.
    destruct (stdout_write (found_line found) w3) as [[[]|e] w4].
    + assert (Hprompt : synthesizer_prompt message_text found =
                Ok (response_prompt_with_results message_text (join (nl ++ nl) blocks))).
      { unfold synthesizer_prompt, format_search_context.
        destruct found; [now destruct Hnonempty|].
        rewrite Hrender. reflexivity. }
      destruct (second_call_handled llm message_text _ found
                  ([EvInvoke llm (question_check_prompt message_text);
                    EvPrint (searching_line message_text)]
                     ++ t3 ++ [EvPrint (found_line found)])%list w4 Hprompt)
        as (_ & Hprompts & _).
      rewrite Hprompts. simpl. rewrite prompts_app, Hquiet. reflexivity.
    + destruct (logged_events
                  ([EvInvoke llm (question_check_prompt message_text);
                    EvPrint (searching_line message_text)] ++ t3)%list
                  (pipeline_error_line e) (fallback_response message_text) w4)
        as (_ & Hprompts & _).
      rewrite Hprompts. simpl. rewrite Hquiet. reflexivity.
  - intros key ms' Hkey Hne Hanswer.
    rewrite (console_search_web_answered _ _ _ _ _ Hkey Hne Hanswer) in Hsearch.
    now inversion Hsearch.
Qed.

(** C6, as amended. In every run in which the classifier answers and the
    results handed to the synthesizer are empty, the second call to the
    model carries the no-results template around the message; the text of
    the template holds no Title, Snippet or Link line head, so the prompt
    holds one only if the message itself does.  The run then completes on
    that call: its answer is the trimmed reply, and the handler is used only
    if that call itself raises.  Empty results are handed on when the
    decision is not YES, and, on a YES, when the Searching line is written,
    [search_web] returns the empty list and the Found line is written;
    [search_web] returns nothing but the empty list when the search is
    disabled or the call to the provider failed.  When one of the prints on
    the way raises, no results are handed on and the model is not called a
    second time. *)
Theorem empty_results_reach_the_no_results_prompt
    (llm : ChatAnthropic) (message_text : string) (w : W) (raw : string) (w1 : W) :
  chain_invoke llm (question_check_prompt message_text) w = (Ok raw, w1) ->
  let question := question_check_prompt message_text in
  let prompt := response_prompt_no_results message_text in
  let run := megabrain_improvement llm message_text w in
  (forall w2 t2,
     fetch_results message_text raw w1 = (Ok [], w2, t2) ->
     prompts (events run) = [question; prompt]
     /\ run =
          match chain_invoke llm prompt w2 with
          | (Ok answer, w3) =>
              (Ok (str_strip answer), w3,
               (EvInvoke llm question :: t2 ++ [EvInvoke llm prompt])%list)
          | (Raise e, w3) =>
              logged (EvInvoke llm question :: t2 ++ [EvInvoke llm prompt])%list
                (pipeline_error_line e) (fallback_response message_text) w3
          end)
  /\ (prompt = no_results_before_message ++ message_text ++ no_results_after_message
      /\ has_results_block no_results_before_message = false
      /\ has_results_block no_results_after_message = false
      /\ (has_results_block message_text = false -> has_results_block prompt = false))
  /\ (str_upper (str_strip raw) <> "YES" ->
      fetch_results message_text raw w1 = (Ok [], w1, []))
  /\ (str_upper (str_strip raw) = "YES" ->
      forall wa wb t w2,
        stdout_write (searching_line message_text) w1 = (Ok tt, wa) ->
        search_web message_text 5 wa = (Ok [], wb, t) ->
        stdout_write (found_line []) wb = (Ok tt, w2) ->
        fetch_results message_text raw w1 =
          (Ok [], w2,
           (EvPrint (searching_line message_text) :: t ++ [EvPrint (found_line [])])%list))
  /\ (forall query num_results wa rs wb t,
        search_web query num_results wa = (Ok rs, wb, t) ->
        credential_present (os_getenv "SERPER_API_KEY" wa) = false
        \/ (exists key,
              os_getenv "SERPER_API_KEY" wa = Some key
              /\ http_call_fails (serper_request key query num_results) wa = true) ->
        rs = [])
  /\ (forall e w2 t2,
        fetch_results message_text raw w1 = (Raise e, w2, t2) ->
        (exists line w', fst (stdout_write line w') = Raise e)
        /\ prompts (events run) = [question]).
Proof.
  intros Hclassifier question prompt run. subst question prompt run.
  split; [|split; [|split; [|split; [|split]]]].
  - intros w2 t2 Hfetch.
    pose proof (console_fetch_quiet message_text raw w1) as [Hquiet _].
    rewrite Hfetch in Hquiet. unfold events in Hquiet. simpl in Hquiet.
    assert (Hrun :
      megabrain_improvement llm message_text w =
        match second_call llm message_text []
                (EvInvoke llm (question_check_prompt message_text) :: t2)%list w2 with
        | (Ok answer, w3, t3) => (Ok answer, w3, t3)
        | (Raise e, w3, t3) =>
            logged t3 (pipeline_error_line e) (fallback_response message_text) w3
        end).
    { rewrite console_improvement_eq, console_steps_blocks. cbv zeta.
      rewrite Hclassifier, Hfetch. reflexivity. }
    destruct (second_call_handled llm message_text
                (response_prompt_no_results message_text) []
                (EvInvoke llm (question_check_prompt message_text) :: t2)%list w2 eq_refl)
      as (_ & Hprompts & Hcall).
    rewrite <- Hrun in Hprompts, Hcall. split; [|exact Hcall].
    rewrite Hprompts. simpl. rewrite Hquiet. reflexivity.
  - split; [reflexivity|]. split; [vm_compute; reflexivity|].
    split; [vm_compute; reflexivity|]. apply no_results_prompt_without_block.
  - intros Hno. apply String.eqb_neq in Hno.
    rewrite console_fetch_eq, Hno. reflexivity.
  - intros Hyes wa wb t w2 Hfirst Hsearch Hsecond.
    rewrite console_fetch_eq, Hyes. simpl String.eqb.
    rewrite Hfirst, Hsearch, Hsecond. reflexivity.
  - intros query num_results wa rs wb t Hsearch Hcause.
    rewrite console_search_web_eq in Hsearch.
    assert (Hlogged : forall before line w0,
              @logged W _ (list pydict) before line [] w0 = (Ok rs, wb, t) -> rs = []).
    { intros before line w0.
      destruct (logged_cases before line (@nil pydict) w0)
        as [[w5 [_ ->]]|[e' [w5 [_ ->]]]]; intros Heq; now inversion Heq. }
    unfold credential_present in Hcause.
    destruct (os_getenv "SERPER_API_KEY" wa) as [key|];
      [|exact (Hlogged _ _ _ Hsearch)].
    destruct (String.eqb key "") eqn:Hempty; [exact (Hlogged _ _ _ Hsearch)|].
    destruct Hcause as [Habsent|[key' [Hkey Hfails]]]; [discriminate|].
    inversion Hkey. subst key'. cbv zeta in Hsearch.
    unfold http_call_fails in Hfails.
    destruct (requests_post (serper_request key query num_results) wa)
      as [[resp|e] w5]; simpl in Hfails; [|exact (Hlogged _ _ _ Hsearch)].
    assert (Hraise : exists e, read_response serper_url resp = Raise e).
    { apply orb_true_iff in Hfails. destruct Hfails as [Hstatus|Hbody].
      - destruct (read_response_error_status serper_url resp Hstatus) as [e [He _]].
        now exists e.
      - destruct (json_body resp) as [data|e] eqn:Hjson; [discriminate|].
        exact (read_response_undecodable serper_url resp e Hjson). }
    destruct Hraise as [e He]. rewrite He in Hsearch. exact (Hlogged _ _ _ Hsearch).
  - intros e w2 t2 Hfetch.
    assert (Hraise : outcome (fetch_results message_text raw w1) = Raise e)
      by now rewrite Hfetch.
    split; [exact (console_fetch_raises _ _ _ _ Hraise)|].
    pose proof (console_fetch_quiet message_text raw w1) as [Hquiet _].
    rewrite Hfetch in Hquiet. unfold events in Hquiet. simpl in Hquiet.
    rewrite console_improvement_eq, console_steps_blocks. cbv zeta.
    rewrite Hclassifier, Hfetch.
    destruct (logged_events
                (EvInvoke llm (question_check_prompt message_text) :: t2)%list
                (pipeline_error_line e) (fallback_response message_text) w2)
      as (_ & -> & _).
    simpl. rewrite Hquiet. reflexivity.
Qed.
End ConsoleSynthesis.

(** ** Further properties of the pipeline and of the storyteller *)

Section ConsoleFurther.
Context {W : Type} `{Services W} `{PyStr} `{Stdout W}.

Lemma second_call_posts (llm : ChatAnthropic) (message_text : string)
    (found : list pydict) (before : list event) (w : W) :
  posts (events (second_call llm message_text found before w)) = posts before.
Proof.
  unfold second_call.
  destruct (synthesizer_prompt message_text found) as [prompt|e]; [|reflexivity].
  destruct (chain_invoke llm prompt w) as [[answer|e] w1]; unfold events; simpl;
    rewrite posts_app; simpl; apply app_nil_r.
Qed.

Lemma console_fetch_posts (message_text raw : string) (w : W) :
  posts (events (fetch_results message_text raw w)) =
    if String.eqb (str_upper (str_strip raw)) "YES" then
      match stdout_write (searching_line message_text) w with
      | (Ok _, w2) =>
          match os_getenv "SERPER_API_KEY" w2 with
          | Some key =>
              if String.eqb key "" then [] else [serper_request key message_text 5]
          | None => []
          end
      | (Raise _, _) => []
      end
    else [].
Proof.
  rewrite console_fetch_eq.
  destruct (String.eqb (str_upper (str_strip raw)) "YES"); [|reflexivity].
  destruct (stdout_write (searching_line message_text) w) as [[[]|e] w2]; [|reflexivity].
  rewrite <- (console_search_web_posts message_text 5 w2).
  destruct (search_web message_text 5 w2) as [[[found|e] w3] t3].
  - destruct (stdout_write (found_line found) w3) as [[[]|e] w4]; unfold events; simpl;
      [rewrite posts_app; simpl; apply app_nil_r | reflexivity].
  - reflexivity.
Qed.

(** X5. [megabrain_improvement] calls requests.post at most once, and
    exactly when the classifier call returned, its output stripped and
    upper-cased equals YES, the Searching line was written, and
    SERPER_API_KEY is non-empty at that moment; the request then carries the
    message itself as q and num = 5.  When the print of the Searching line
    raises, no request is made. *)
Theorem pipeline_posts_follow_the_decision
    (llm : ChatAnthropic) (message_text : string) (w : W) :
  posts (events (megabrain_improvement llm message_text w)) =
    match chain_invoke llm (question_check_prompt message_text) w with
    | (Ok raw, w1) =>
        if String.eqb (str_upper (str_strip raw)) "YES" then
          match stdout_write (searching_line message_text) w1 with
          | (Ok _, w2) =>
              match os_getenv "SERPER_API_KEY" w2 with
              | Some key =>
                  if String.eqb key "" then [] else [serper_request key message_text 5]
              | None => []
              end
          | (Raise _, _) => []
          end
        else []
    | (Raise _, _) => []
    end.
Proof.
  rewrite console_improvement_eq, console_steps_blocks. cbv zeta.
  destruct (chain_invoke llm (question_check_prompt message_text) w) as [[raw|e] w1].
  - rewrite <- (console_fetch_posts message_text raw w1).
    destruct (fetch_results message_text raw w1) as [[[found|e] w2] t2].
    + pose proof (second_call_posts llm message_text found
                    (EvInvoke llm (question_check_prompt message_text) :: t2)%list w2)
        as Hposts.
      destruct (second_call llm message_text found
                  (EvInvoke llm (question_check_prompt message_text) :: t2)%list w2)
        as [[[answer|e] w3] t3].
      * exact Hposts.
      * destruct (logged_events t3 (pipeline_error_line e)
                    (fallback_response message_text) w3) as (-> & _ & _).
        exact Hposts.
    + destruct (logged_events
                  (EvInvoke llm (question_check_prompt message_text) :: t2)%list
                  (pipeline_error_line e) (fallback_response message_text) w2)
        as (-> & _ & _).
      reflexivity.
  - destruct (logged_events [EvInvoke llm (question_check_prompt message_text)]
                (pipeline_error_line e) (fallback_response message_text) w1)
      as (-> & _ & _).
    reflexivity.
Qed.


(** X9. The lines of a run whose search branch ran to its end.  When the
    pipeline searched, they are the Searching line, then the lines of
    [search_web], then the Found line with the number of results the
    pipeline goes on with; when it did not, there is none.  The only line
    that can follow is the error line of the handler.  The Searching and
    the Found line are printed inside the [try]: when one of them is not
    written the branch does not run to its end. *)
Theorem search_branch_log
    (llm : ChatAnthropic) (message_text : string) (w : W) (raw : string) (w1 : W)
    (found : list pydict) (w2 : W) (t2 : list event) :
  chain_invoke llm (question_check_prompt message_text) w = (Ok raw, w1) ->
  fetch_results message_text raw w1 = (Ok found, w2, t2) ->
  let run := megabrain_improvement llm message_text w in
  (exists tail,
     printed (events run) = (printed t2 ++ tail)%list
     /\ (tail = [] \/ exists e, tail = [pipeline_error_line e]))
  /\ (str_upper (str_strip raw) <> "YES" -> t2 = [] /\ found = [])
  /\ (str_upper (str_strip raw) = "YES" ->
      exists wa wb t3,
        stdout_write (searching_line message_text) w1 = (Ok tt, wa)
        /\ search_web message_text 5 wa = (Ok found, wb, t3)
        /\ stdout_write (found_line found) wb = (Ok tt, w2)
        /\ printed t2 =
             (searching_line message_text :: printed t3 ++ [found_line found])%list).
Proof.
  intros Hclassifier Hfetch run. subst run. split; [|split].
  - rewrite console_improvement_eq, console_steps_blocks. cbv zeta.
    rewrite Hclassifier, Hfetch. unfold second_call.
    destruct (synthesizer_prompt message_text found) as [prompt|e].
    + destruct (chain_invoke llm prompt w2) as [[answer|e] w3].
      * exists []. unfold events; simpl. rewrite printed_app. simpl.
        rewrite !app_nil_r. split; [reflexivity | now left].
      * destruct (logged_cases
                    ((EvInvoke llm (question_check_prompt message_text) :: t2)
                       ++ [EvInvoke llm prompt])%list
                    (pipeline_error_line e) (fallback_response message_text) w3)
          as [[w4 [_ ->]]|[e' [w4 [_ ->]]]]; unfold events; simpl.
        -- exists [pipeline_error_line e]. rewrite !printed_app. simpl.
           rewrite !app_nil_r. split; [reflexivity | right; now exists e].
        -- exists []. rewrite printed_app. simpl. rewrite !app_nil_r.
           split; [reflexivity | now left].
    + destruct (logged_cases
                  (EvInvoke llm (question_check_prompt message_text) :: t2)%list
                  (pipeline_error_line e) (fallback_response message_text) w2)
        as [[w4 [_ ->]]|[e' [w4 [_ ->]]]]; unfold events; simpl.
      * exists [pipeline_error_line e]. rewrite printed_app. simpl.
        split; [reflexivity | right; now exists e].
      * exists []. rewrite app_nil_r. split; [reflexivity | now left].
  - intros Hno. apply String.eqb_neq in Hno.
    rewrite console_fetch_eq, Hno in Hfetch. inversion Hfetch. split; reflexivity.
  - intros Hyes. rewrite console_fetch_eq, Hyes in Hfetch. simpl String.eqb in Hfetch.
    destruct (stdout_write (searching_line message_text) w1) as [[[]|e] wa];
      [|discriminate].
    destruct (search_web message_text 5 wa) as [[[found'|e] wb] t3] eqn:Hsearch;
      [|discriminate].
    destruct (stdout_write (found_line found') wb) as [[[]|e] w4] eqn:Hsecond;
      [|discriminate].
    inversion Hfetch. subst found' w4.
    exists wa, wb, t3.
    split; [reflexivity|]. split; [exact Hsearch|]. split; [exact Hsecond|].
    simpl. rewrite printed_app. reflexivity.
Qed.

Lemma console_storyteller_eq (llm : ChatAnthropic) (message_text : string) (w : W) :
  storyteller_improvement llm message_text w =
    match chain_invoke llm (storyteller_prompt message_text) w with
    | (Ok story, w1) =>
        (Ok (str_strip story), w1, [EvInvoke llm (storyteller_prompt message_text)])
    | (Raise e, w1) =>
        logged [EvInvoke llm (storyteller_prompt message_text)]
          ("Error in storyteller improvement: " ++ exc_str e)
          (storyteller_fallback message_text) w1
    end.
Proof.
  unfold storyteller_improvement, try_except, bind, invoke, print, ret, logged.
  destruct (chain_invoke llm (storyteller_prompt message_text) w) as [[story|e] w1];
    [reflexivity|].
  destruct (stdout_write ("Error in storyteller improvement: " ++ exc_str e) w1)
    as [[[]|e'] w2]; reflexivity.
Qed.

(** X10. [storyteller_improvement] returns the trimmed story when the
    chain answers.  When the chain raises, the handler prints the line
    Error in storyteller improvement; when the line is written it returns
    the fallback tale, a fixed text around the message, which therefore
    contains it.  That print stands outside any [try]: when the line is not
    written the run raises the exception of the print, and this is the only
    way the run raises. *)
Theorem storyteller_raises_only_from_its_handler
    (llm : ChatAnthropic) (message_text : string) (w : W) :
  let run := storyteller_improvement llm message_text w in
  let line e := "Error in storyteller improvement: " ++ exc_str e in
  run =
    match chain_invoke llm (storyteller_prompt message_text) w with
    | (Ok story, w1) =>
        (Ok (str_strip story), w1, [EvInvoke llm (storyteller_prompt message_text)])
    | (Raise e, w1) =>
        match stdout_write (line e) w1 with
        | (Ok _, w2) =>
            (Ok (storyteller_fallback message_text), w2,
             [EvInvoke llm (storyteller_prompt message_text); EvPrint (line e)])
        | (Raise e', w2) =>
            (Raise e', w2, [EvInvoke llm (storyteller_prompt message_text)])
        end
    end
  /\ contains message_text (storyteller_fallback message_text) = true
  /\ (forall e',
        outcome run = Raise e' ->
        exists e w1,
          chain_invoke llm (storyteller_prompt message_text) w = (Raise e, w1)
          /\ fst (stdout_write (line e) w1) = Raise e').
Proof.
  cbv beta zeta. rewrite console_storyteller_eq. split; [|split].
  - destruct (chain_invoke llm (storyteller_prompt message_text) w) as [[story|e] w1];
      reflexivity.
  - apply contains_append.
  - intros e'.
    destruct (chain_invoke llm (storyteller_prompt message_text) w) as [[story|e] w1];
      [unfold outcome; simpl; discriminate|].
    destruct (logged_cases [EvInvoke llm (storyteller_prompt message_text)]
                ("Error in storyteller improvement: " ++ exc_str e)
                (storyteller_fallback message_text) w1)
      as [[w2 [_ ->]]|[e0 [w2 [Hwrite ->]]]]; unfold outcome; cbn [fst];
      intros Hraise; [discriminate|].
    exists e, w1. split; [reflexivity|]. rewrite Hwrite. inversion Hraise. reflexivity.
Qed.
End ConsoleFurther.

(** * The theorems on any console at concrete inputs *)

Import Demo Worlds HostDemo ConsoleDemo.

(** C1 as stated fails: the call to the classifier raises with a message
    that is not 7-bit text, on a console that takes 7-bit text only.  The
    exception is caught, the print of the handler raises, and the run
    raises to the caller. *)
Lemma pipeline_raises_when_its_error_line_is_refused :
  let run :=
    megabrain_improvement (console := ascii_only accent_refused) llm gold_question
      refusing_model in
  fst (chain_invoke llm (question_check_prompt gold_question) refusing_model)
    = Raise ModelRefusal
  /\ seven_bit (pipeline_error_line ModelRefusal) = false
  /\ outcome run = Raise accent_refused
  /\ events run = [EvInvoke llm (question_check_prompt gold_question)].
Proof.
  cbv zeta. repeat split; vm_compute; reflexivity.
Qed.

(** C3 as stated fails twice.  The provider answers with status 300, which
    is not a 2xx status, and a well-formed body: [search_web] takes it for
    a success, returns the three results and logs nothing.  And the
    provider answers 503 with a reason phrase that is not 7-bit text, on a
    console that takes 7-bit text only: the failure is caught, the print of
    the handler raises, and [search_web] raises past its boundary. *)
Lemma search_web_takes_300_and_raises_at_its_print :
  let run := search_web (console := writable) gold_question 5 multiple_choices in
  let refused :=
    search_web (console := ascii_only diaeresis_refused) gold_question 5
      refusing_provider in
  ((exists resp,
      fst (requests_post (serper_request "k" gold_question 5) multiple_choices) = Ok resp
      /\ status_code resp = 300%Z
      /\ is_success_status (status_code resp) = false)
   /\ outcome run = Ok gold_records
   /\ outcome run <> Ok []
   /\ printed (events run) = [])
  /\ (http_call_fails (serper_request "k" gold_question 5) refusing_provider = true
      /\ outcome refused = Raise diaeresis_refused
      /\ events refused = [EvPost (serper_request "k" gold_question 5)]).
Proof.
  cbv zeta. split.
  - split; [|split; [|split]].
    + eexists. split; [reflexivity|]. split; reflexivity.
    + vm_compute. reflexivity.
    + vm_compute. discriminate.
    + vm_compute. reflexivity.
  - repeat split; vm_compute; reflexivity.
Qed.

(** C1 at work: the classifier says yes, the console refuses the Searching
    line, which begins with a magnifying glass; the exception of that print
    is caught, the error line is 7-bit text and is written, and the answer
    is the fallback: nothing was searched and the model was not called
    again. *)
Lemma pipeline_raises_only_from_its_handler_witness :
  let console := ascii_only glass_refused in
  let steps := megabrain_steps (console := console) llm gold_question gold in
  let run := megabrain_improvement (console := console) llm gold_question gold in
  outcome steps = Raise glass_refused
  /\ run =
       (Ok (fallback_response gold_question), world_after steps,
        [EvInvoke llm (question_check_prompt gold_question);
         EvPrint (pipeline_error_line glass_refused)]).
Proof.
  cbv zeta.
  assert (Hsteps :
    outcome (megabrain_steps (console := ascii_only glass_refused) llm gold_question gold)
    = Raise glass_refused) by (vm_compute; reflexivity).
  split; [exact Hsteps|].
  destruct (@pipeline_raises_only_from_its_handler world services ascii_str
              (ascii_only glass_refused) llm gold_question gold)
    as (_ & Hraise & _).
  destruct (Hraise glass_refused Hsteps) as [_ Hrun].
  rewrite Hrun. vm_compute. reflexivity.
Defined.

(** C2 at work.  The classifier says yes and the console takes every line:
    the search is run next.  The same answer on a console that refuses the
    Searching line: nothing is sent to the search service and the model is
    not called again. *)
Lemma classifier_output_decides_the_search_witness :
  let question := question_check_prompt gold_question in
  let w1 := snd (chain_invoke llm question gold) in
  let refused :=
    megabrain_improvement (console := ascii_only glass_refused) llm gold_question gold in
  chain_invoke llm question gold = (Ok yes_with_blanks, w1)
  /\ str_upper (str_strip yes_with_blanks) = "YES"
  /\ (exists rest,
        events (megabrain_improvement (console := writable) llm gold_question gold) =
          ([EvInvoke llm question; EvPrint (searching_line gold_question)]
             ++ events (search_web (console := writable) gold_question 5 w1) ++ rest)%list)
  /\ stdout_write (Stdout := ascii_only glass_refused) (searching_line gold_question) w1
       = (Raise glass_refused, w1)
  /\ posts (events refused) = []
  /\ prompts (events refused) = [question].
Proof.
  cbv zeta.
  assert (Hclassifier :
            chain_invoke llm (question_check_prompt gold_question) gold
            = (Ok yes_with_blanks,
               snd (chain_invoke llm (question_check_prompt gold_question) gold)))
    by reflexivity.
  assert (Hyes : str_upper (str_strip yes_with_blanks) = "YES") by reflexivity.
  assert (Hwritten :
            stdout_write (Stdout := writable) (searching_line gold_question)
              (snd (chain_invoke llm (question_check_prompt gold_question) gold))
            = (Ok tt, snd (chain_invoke llm (question_check_prompt gold_question) gold)))
    by reflexivity.
  assert (Hrefused :
            stdout_write (Stdout := ascii_only glass_refused)
              (searching_line gold_question)
              (snd (chain_invoke llm (question_check_prompt gold_question) gold))
            = (Raise glass_refused,
               snd (chain_invoke llm (question_check_prompt gold_question) gold)))
    by reflexivity.
  split; [exact Hclassifier|]. split; [exact Hyes|]. split.
  - exact (proj1 (proj2 (@classifier_output_decides_the_search world services ascii_str
                           writable llm gold_question gold _ _ Hclassifier) Hyes)
             _ Hwritten).
  - split; [exact Hrefused|].
    destruct (proj2 (proj2 (@classifier_output_decides_the_search world services ascii_str
                              (ascii_only glass_refused) llm gold_question gold _ _
                              Hclassifier) Hyes)
                _ _ Hrefused) as (Hposts & Hprompts & _).
    split; assumption.
Defined.

(** C3 at work: the provider answers 503 with a page that is not JSON; the
    line is written, the list is empty.  And the provider answers with
    three entries: their records are returned. *)
Lemma search_web_lets_only_its_prints_raise_witness :
  let req := serper_request "k" gold_question 5 in
  os_getenv "SERPER_API_KEY" unavailable = Some "k"
  /\ http_call_fails req unavailable = true
  /\ (exists e,
        search_web (console := writable) gold_question 5 unavailable =
          (Ok [], snd (requests_post req unavailable),
           [EvPost req; EvPrint (search_error_line e)]))
  /\ answered_with req gold gold_members
  /\ search_web (console := writable) gold_question 5 gold =
       (Ok (map record_of_members gold_members), snd (requests_post req gold),
        [EvPost req]).
Proof.
  cbv zeta.
  assert (Hkey : os_getenv "SERPER_API_KEY" unavailable = Some "k") by reflexivity.
  assert (Hkey' : os_getenv "SERPER_API_KEY" gold = Some "k") by reflexivity.
  assert (Hne : "k" <> "") by discriminate.
  assert (Hfails : http_call_fails (serper_request "k" gold_question 5) unavailable = true)
    by reflexivity.
  assert (Hanswer : answered_with (serper_request "k" gold_question 5) gold gold_members).
  { do 3 eexists. split; [reflexivity|]. split; [reflexivity|]. split; reflexivity. }
  split; [exact Hkey|]. split; [exact Hfails|]. split; [|split; [exact Hanswer|]].
  - exact (proj1 (proj2 (@search_web_lets_only_its_prints_raise world services writable
                           gold_question 5 unavailable) "k" Hkey Hne) Hfails).
  - exact (proj2 (proj2 (@search_web_lets_only_its_prints_raise world services writable
                           gold_question 5 gold) "k" Hkey' Hne) gold_members Hanswer).
Defined.

(** C8 at work: three organic entries for five asked, three records, the
    second with an empty snippet for the one its entry lacks. *)
Lemma search_web_returns_every_entry_or_none_witness :
  let req := serper_request "k" gold_question 5 in
  let run := search_web (console := writable) gold_question 5 gold in
  os_getenv "SERPER_API_KEY" gold = Some "k"
  /\ "k" <> ""
  /\ answered_with req gold gold_members
  /\ dict_lookup "num" (req_payload req) = Some (JInt 5)
  /\ posts (events run) = [req]
  /\ outcome run = Ok gold_records
  /\ length gold_records = length gold_members.
Proof.
  cbv zeta.
  assert (Hkey : os_getenv "SERPER_API_KEY" gold = Some "k") by reflexivity.
  assert (Hne : "k" <> "") by discriminate.
  assert (Hanswer : answered_with (serper_request "k" gold_question 5) gold gold_members).
  { do 3 eexists. split; [reflexivity|]. split; [reflexivity|]. split; reflexivity. }
  split; [exact Hkey|]. split; [exact Hne|]. split; [exact Hanswer|].
  destruct (@search_web_returns_every_entry_or_none world services writable
              gold_question 5 gold "k" Hkey Hne)
    as (Hnum & Hposts & Hall & _ & _).
  split; [exact Hnum|]. split; [exact Hposts|].
  exact (Hall gold_members Hanswer).
Defined.

(** C4 at work: three results for the price of gold, three blocks in the
    prompt of the second call, the first of them with the title, the
    snippet and the link of the first result as the provider gave them. *)
Lemma results_reach_the_synthesizer_prompt_witness :
  let question := question_check_prompt gold_question in
  let w1 := snd (chain_invoke llm question gold) in
  let searched := search_web (console := writable) gold_question 5 w1 in
  chain_invoke llm question gold = (Ok yes_with_blanks, w1)
  /\ str_upper (str_strip yes_with_blanks) = "YES"
  /\ searched = (Ok gold_records, world_after searched, events searched)
  /\ exists first rest,
       let prompt :=
         response_prompt_with_results gold_question (join (nl ++ nl) (first :: rest)) in
       first = "Title: Gold price today" ++ nl ++ "Snippet: Spot gold is trading" ++ nl
                 ++ "Link: https://a.example/gold"
       /\ contains "Gold price today" prompt = true
       /\ contains "Spot gold is trading" prompt = true
       /\ contains "https://a.example/gold" prompt = true
       /\ prompts (events (megabrain_improvement (console := writable) llm gold_question
                             gold))
          = [question; prompt].
Proof.
  cbv zeta.
  assert (Hclassifier :
            chain_invoke llm (question_check_prompt gold_question) gold
            = (Ok yes_with_blanks,
               snd (chain_invoke llm (question_check_prompt gold_question) gold)))
    by reflexivity.
  assert (Hyes : str_upper (str_strip yes_with_blanks) = "YES") by reflexivity.
  assert (Hwritten :
            stdout_write (Stdout := writable) (searching_line gold_question)
              (snd (chain_invoke llm (question_check_prompt gold_question) gold))
            = (Ok tt, snd (chain_invoke llm (question_check_prompt gold_question) gold)))
    by reflexivity.
  assert (Hsearch :
            search_web (console := writable) gold_question 5
              (snd (chain_invoke llm (question_check_prompt gold_question) gold))
            = (Ok gold_records,
               world_after
                 (search_web (console := writable) gold_question 5
                    (snd (chain_invoke llm (question_check_prompt gold_question) gold))),
               events
                 (search_web (console := writable) gold_question 5
                    (snd (chain_invoke llm (question_check_prompt gold_question) gold)))))
    by reflexivity.
  assert (Hnonempty : gold_records <> []) by discriminate.
  split; [exact Hclassifier|]. split; [exact Hyes|]. split; [exact Hsearch|].
  destruct (@results_reach_the_synthesizer_prompt world services ascii_str writable
              llm gold_question gold _ _ _ _ _ _
              Hclassifier Hyes Hwritten Hsearch Hnonempty)
    as (blocks & _ & Hfields & _ & Hprompts & _).
  inversion Hfields as [|r first rs rest Hfirst Hrest]. subst.
  destruct (Hfirst "Gold price today" "Spot gold is trading" "https://a.example/gold"
              eq_refl eq_refl eq_refl) as (Htext & Htitle & Hsnippet & Hlink).
  exists first, rest. cbv zeta.
  split; [exact Htext|]. split; [exact Htitle|]. split; [exact Hsnippet|].
  split; [exact Hlink|]. exact Hprompts.
Defined.

(** C6 at work: the classifier says YES and the provider cannot be reached;
    the lines are written, the results are empty, and the second call to
    the model carries the no-results prompt, which has no block of results;
    the answer is the reply to that call. *)
Lemma empty_results_reach_the_no_results_prompt_witness :
  let question := question_check_prompt news_question in
  let w1 := snd (chain_invoke llm question search_down) in
  let fetch := fetch_results (console := writable) news_question "YES" w1 in
  let run := megabrain_improvement (console := writable) llm news_question search_down in
  chain_invoke llm question search_down = (Ok "YES", w1)
  /\ fetch = (Ok [], world_after fetch, events fetch)
  /\ posts (events fetch) = [serper_request "k" news_question 5]
  /\ has_results_block news_question = false
  /\ prompts (events run) = [question; response_prompt_no_results news_question]
  /\ has_results_block (response_prompt_no_results news_question) = false
  /\ outcome run = Ok "Here is what I know.".
Proof.
  cbv zeta.
  assert (Hclassifier :
            chain_invoke llm (question_check_prompt news_question) search_down
            = (Ok "YES",
               snd (chain_invoke llm (question_check_prompt news_question) search_down)))
    by reflexivity.
  assert (Hfetch :
            fetch_results (console := writable) news_question "YES"
              (snd (chain_invoke llm (question_check_prompt news_question) search_down))
            = (Ok [],
               world_after
                 (fetch_results (console := writable) news_question "YES"
                    (snd (chain_invoke llm (question_check_prompt news_question)
                            search_down))),
               events
                 (fetch_results (console := writable) news_question "YES"
                    (snd (chain_invoke llm (question_check_prompt news_question)
                            search_down)))))
    by reflexivity.
  assert (Hplain : has_results_block news_question = false) by reflexivity.
  split; [exact Hclassifier|]. split; [exact Hfetch|].
  split; [vm_compute; reflexivity|]. split; [exact Hplain|].
  destruct (@empty_results_reach_the_no_results_prompt world services ascii_str writable
              llm news_question search_down _ _ Hclassifier)
    as (Hempty & (_ & _ & _ & Hblock) & _).
  destruct (Hempty _ _ Hfetch) as [Hprompts Hrun].
  split; [exact Hprompts|]. split; [exact (Hblock Hplain)|].
  rewrite Hrun. reflexivity.
Defined.


(** X9 at work: a search with three results leaves two lines, and the run
    ends without an error line. *)
Lemma search_branch_log_witness :
  let question := question_check_prompt gold_question in
  let w1 := snd (chain_invoke llm question gold) in
  let fetch := fetch_results (console := writable) gold_question yes_with_blanks w1 in
  let run := megabrain_improvement (console := writable) llm gold_question gold in
  chain_invoke llm question gold = (Ok yes_with_blanks, w1)
  /\ fetch = (Ok gold_records, world_after fetch, events fetch)
  /\ str_upper (str_strip yes_with_blanks) = "YES"
  /\ (exists tail,
        printed (events run) = (printed (events fetch) ++ tail)%list
        /\ (tail = [] \/ exists e, tail = [pipeline_error_line e]))
  /\ printed (events fetch) = [searching_line gold_question; found_line gold_records]
  /\ found_line gold_records = "📊 Found 3 search results".
Proof.
  cbv zeta.
  assert (Hclassifier :
            chain_invoke llm (question_check_prompt gold_question) gold
            = (Ok yes_with_blanks,
               snd (chain_invoke llm (question_check_prompt gold_question) gold)))
    by reflexivity.
  assert (Hfetch :
            fetch_results (console := writable) gold_question yes_with_blanks
              (snd (chain_invoke llm (question_check_prompt gold_question) gold))
            = (Ok gold_records,
               world_after
                 (fetch_results (console := writable) gold_question yes_with_blanks
                    (snd (chain_invoke llm (question_check_prompt gold_question) gold))),
               events
                 (fetch_results (console := writable) gold_question yes_with_blanks
                    (snd (chain_invoke llm (question_check_prompt gold_question) gold)))))
    by reflexivity.
  assert (Hyes : str_upper (str_strip yes_with_blanks) = "YES") by reflexivity.
  split; [exact Hclassifier|]. split; [exact Hfetch|]. split; [exact Hyes|].
  destruct (@search_branch_log world services ascii_str writable
              llm gold_question gold _ _ _ _ _ Hclassifier Hfetch)
    as (Htail & _ & _).
  split; [exact Htail|]. split; reflexivity.
Defined.

(** C6 as stated fails: the classifier says YES, the provider cannot be
    reached, and the reader of the output has gone after the Searching
    line.  The failure of the search is caught in [search_web], whose
    handler prints; that print raises, and so does the print of the handler
    of the pipeline: the model is not called a second time and the run
    raises. *)
Lemma failing_search_ends_the_run_on_a_broken_pipe :
  let question := question_check_prompt news_question in
  let start : piped := (search_down, 1) in
  let run :=
    @megabrain_improvement piped piped_services ascii_str pipe llm news_question start in
  let w1 := snd (@chain_invoke piped piped_services llm question start) in
  @chain_invoke piped piped_services llm question start = (Ok "YES", w1)
  /\ str_upper (str_strip "YES") = "YES"
  /\ @stdout_write piped pipe (searching_line news_question) w1 = (Ok tt, (fst w1, 0))
  /\ @http_call_fails piped piped_services (serper_request "k" news_question 5)
       (fst w1, 0) = true
  /\ outcome (@search_web piped piped_services pipe news_question 5 (fst w1, 0))
     = Raise BrokenPipeError
  /\ prompts (events run) = [question]
  /\ outcome run = Raise BrokenPipeError.
Proof.
  cbv zeta. repeat split; vm_compute; reflexivity.
Qed.
